(** * Kibana MCP server: session lifecycle and request pipeline

    A shallow embedding of [src/kibana_mcp_server/server.py].  The Python
    module keeps one global [KibanaSession]; its methods log in, check the
    23 hour validity window and forward queries to the console proxy with a
    single retry after a 401.  The embedding follows the module top to bottom:
    JSON values and Python's string primitives, the exceptions the module
    raises, a state-and-exception monad for the asynchronous methods, then
    [KibanaSession], the module-level credential functions and the tool
    handlers up to the value returned by [session.request]. *)

From Stdlib Require Import String Ascii ZArith List Lia Bool DecimalString.
From Stdlib Require Import Floats.SpecFloat.
Import ListNotations.
Open Scope string_scope.
Open Scope Z_scope.

Set Implicit Arguments.
Set Warnings "-register-all".

(** ** JSON values

    [json.loads] and the MCP transport hand Python values to the module:
    [None], [bool], [int], [float], [str], [list] and [dict].  A [dict] keeps
    its insertion order, so an object is an association list. *)

Inductive json : Type :=
| JNull
| JBool (b : bool)
| JInt (n : Z)
| JFloat (f : spec_float)
| JString (s : string)
| JArray (items : list json)
| JObject (members : list (string * json)).

(** Python dictionaries with string keys, in insertion order. *)

Definition dict (V : Type) : Type := list (string * V).

Fixpoint dict_get {V} (k : string) (d : dict V) : option V :=
  match d with
  | [] => None
  | (k', v) :: d' => if String.eqb k k' then Some v else dict_get k d'
  end.

(** [k in d] *)
Definition dict_contains {V} (k : string) (d : dict V) : bool :=
  match dict_get k d with Some _ => true | None => false end.

(** [d.get(k, default)] *)
Definition dict_get_default {V} (k : string) (default : V) (d : dict V) : V :=
  match dict_get k d with Some v => v | None => default end.

(** [d[k] = v]: an existing key keeps its position, a new key goes last. *)
Fixpoint dict_set {V} (k : string) (v : V) (d : dict V) : dict V :=
  match d with
  | [] => [(k, v)]
  | (k', v') :: d' =>
      if String.eqb k k' then (k', v) :: d' else (k', v') :: dict_set k v d'
  end.

(** The dictionary without key [k] (used to compare a call with the same call
    made without one of its optional arguments). *)
Fixpoint dict_remove {V} (k : string) (d : dict V) : dict V :=
  match d with
  | [] => []
  | (k', v') :: d' =>
      if String.eqb k k' then dict_remove k d' else (k', v') :: dict_remove k d'
  end.

(** Python truthiness of a JSON value, as tested by [if x:] and [not x]. *)
Definition truthy (v : json) : bool :=
  match v with
  | JNull => false
  | JBool b => b
  | JInt n => negb (n =? 0)
  | JFloat (S754_zero _) => false
  | JFloat _ => true
  | JString s => negb (String.eqb s "")
  | JArray l => match l with [] => false | _ => true end
  | JObject d => match d with [] => false | _ => true end
  end.

(** ** Python string primitives

    A [string] is read as a sequence of characters.  [str_find] is
    [s.find(sub, start)], [str_slice] is [s[a:b]] with Python's treatment of
    negative and out-of-range bounds, [str_contains] is [sub in s]. *)

Definition str_len (s : string) : Z := Z.of_nat (String.length s).

Definition clamp_index (len i : Z) : Z :=
  if i <? 0 then Z.max 0 (i + len) else Z.min i len.

Definition str_find (s sub : string) (start : Z) : Z :=
  match String.index (Z.to_nat (clamp_index (str_len s) start)) sub s with
  | Some i => if start >? str_len s then -1 else Z.of_nat i
  | None => -1
  end.

Definition str_slice (s : string) (a b : Z) : string :=
  let lo := clamp_index (str_len s) a in
  let hi := clamp_index (str_len s) b in
  String.substring (Z.to_nat lo) (Z.to_nat (hi - lo)) s.

Definition str_contains (sub s : string) : bool :=
  match String.index 0 sub s with Some _ => true | None => false end.

(** [str(n)] for an [int]. *)
Definition str_of_int (n : Z) : string := NilZero.string_of_int (Z.to_int n).

Definition ascii_lower (c : ascii) : ascii :=
  let n := N_of_ascii c in
  if andb (N.leb 65 n) (N.leb n 90) then ascii_of_N (n + 32) else c.

Fixpoint str_lower (s : string) : string :=
  match s with
  | EmptyString => EmptyString
  | String c s' => String (ascii_lower c) (str_lower s')
  end.

(** [sep.join(items)] *)
Fixpoint str_join (sep : string) (items : list string) : string :=
  match items with
  | [] => ""
  | [x] => x
  | x :: rest => x ++ sep ++ str_join sep rest
  end.

(** ** Exceptions

    Every class below derives from [Exception], so [except Exception] catches
    all of them; [JSONDecodeError] is what [except json.JSONDecodeError]
    catches.  [HTTPError] stands for whatever [httpx] raises from [post]
    (timeouts, connection failures).  The interpreter's own wording of a
    [TypeError] is not modelled. *)

Inductive exn : Type :=
| Exception (msg : string)
| ValueError (msg : string)
| JSONDecodeError (msg : string)
| KeyError (key : string)
| TypeError
| HTTPError (msg : string).

(** [str(e)] *)
Definition str_exn (e : exn) : string :=
  match e with
  | Exception m | ValueError m | JSONDecodeError m | HTTPError m => m
  | KeyError k => "'" ++ k ++ "'"
  | TypeError => ""
  end.

(** ** HTTP messages exchanged through [httpx.AsyncClient.post] *)

Record Request : Type := mkRequest {
  url : string;
  json_payload : json;
  req_headers : dict string
}.

Record Response : Type := mkResponse {
  status_code : Z;
  headers : list (string * string);
  text : string
}.

(** [response.headers.get(key, default)]: [httpx] compares header names in
    lower case and joins the values of a repeated header with [", "]. *)
Definition headers_get (hs : list (string * string)) (key default : string)
  : string :=
  match map snd (filter (fun h => String.eqb (str_lower (fst h)) (str_lower key)) hs) with
  | [] => default
  | vals => str_join ", " vals
  end.

(** One call of [client.post] with what came back: a response, or the message
    of the exception [httpx] raised. *)
Definition Exchange : Type := (Request * (string + Response))%type.

(** ** The state-and-exception monad of the asynchronous methods *)

Definition M (St A : Type) : Type := St -> (exn + A) * St.

Definition ret {St A} (a : A) : M St A := fun st => (inr a, st).

Definition bind {St A B} (m : M St A) (k : A -> M St B) : M St B :=
  fun st =>
    match m st with
    | (inr a, st') => k a st'
    | (inl e, st') => (inl e, st')
    end.

Definition raise {St A} (e : exn) : M St A := fun st => (inl e, st).

(** [try: body  except Exception as e: handler(e)] *)
Definition try_except {St A} (body : M St A) (handler : exn -> M St A) : M St A :=
  fun st =>
    match body st with
    | (inr a, st') => (inr a, st')
    | (inl e, st') => handler e st'
    end.

Definition gets {St A} (f : St -> A) : M St A := fun st => (inr (f st), st).

Definition modify {St} (f : St -> St) : M St unit := fun st => (inr tt, f st).

(** Lifting a pure computation that may raise. *)
Definition lift {St A} (r : exn + A) : M St A := fun st => (r, st).

Declare Scope monad_scope.
Delimit Scope monad_scope with monad.
Notation "x <- m ;; k" := (bind m (fun x => k))
  (at level 61, m at next level, right associativity) : monad_scope.
Notation "m ;;; k" := (bind m (fun _ => k))
  (at level 61, right associativity) : monad_scope.
Open Scope monad_scope.

(** ** Configuration constants *)

(** [SESSION_TIMEOUT = timedelta(hours=23)], in microseconds, the resolution
    of [datetime]. *)
Definition SESSION_TIMEOUT : Z := 23 * 3600 * 1000000.

(** ** [class KibanaSession] *)

Record KibanaSession : Type := mkKibanaSession {
  username : json;
  password : json;
  sid_cookie : option string;
  session_created_at : option Z
}.

(** [KibanaSession.__init__] *)
Definition KibanaSession_init (u p : json) : KibanaSession :=
  {| username := u; password := p; sid_cookie := None; session_created_at := None |}.

(** [f"{self.sid_cookie}"] *)
Definition format_sid (c : option string) : string :=
  match c with Some s => s | None => "None" end.

(** [not self.sid_cookie] *)
Definition sid_missing (c : option string) : bool :=
  match c with Some s => String.eqb s "" | None => true end.

(** Lines 94-96: the slice of the [set-cookie] value stored as the token. *)
Definition extract_sid (set_cookie : string) : string :=
  let sid_start := str_find set_cookie "sid=" 0 + 4 in
  let sid_end := str_find set_cookie ";" sid_start in
  str_slice set_cookie sid_start sid_end.

(** ** State

    [W] is the world outside the process: the backend behind [client.post]
    and the wall clock.  A method runs on an object, with the world and the
    log of the calls made through [client.post] so far. *)
Record Obj (W : Type) : Type := mkObj {
  self : KibanaSession;
  world : W;
  exchanged : list Exchange
}.

(** The module: the global [_session], the sessions whose [close()] was
    handed to [asyncio.create_task], the world and the log of calls. *)
Record Module (W : Type) : Type := mkModule {
  _session : option KibanaSession;
  closing : list KibanaSession;
  m_world : W;
  m_exchanged : list Exchange
}.

Arguments mkObj {W} _ _ _.
Arguments self {W} _.
Arguments world {W} _.
Arguments exchanged {W} _.
Arguments mkModule {W} _ _ _ _.
Arguments _session {W} _.
Arguments closing {W} _.
Arguments m_world {W} _.
Arguments m_exchanged {W} _.

(** ** [urllib.parse.quote]

    [quote(s, safe='')] on the UTF-8 bytes of [s]: letters, digits and
    [_.-~] are kept, every other byte becomes [%XX]. *)
Definition unreserved (c : ascii) : bool :=
  let n := N_of_ascii c in
  (((N.leb 48 n) && (N.leb n 57)) || ((N.leb 65 n) && (N.leb n 90))
   || ((N.leb 97 n) && (N.leb n 122))
   || (N.eqb n 95) || (N.eqb n 46) || (N.eqb n 45) || (N.eqb n 126))%bool.

Definition hex_digit (n : N) : ascii :=
  if N.ltb n 10 then ascii_of_N (48 + n) else ascii_of_N (55 + n).

Fixpoint quote (s : string) : string :=
  match s with
  | EmptyString => EmptyString
  | String c s' =>
      if unreserved c then String c (quote s')
      else
        let n := N_of_ascii c in
        String "%" (String (hex_digit (N.div n 16))
                      (String (hex_digit (N.modulo n 16)) (quote s')))
  end.

(** ** A scripted backend and sample states for the worked examples

    The backend answers the calls it receives from a
    script, one entry per call, the clock advancing by a second each time;
    when the script is used up the call times out. *)
Record ScriptedWorld : Type := mkScripted {
  clock : Z;
  script : list (string + Response)
}.

Definition scripted_post (rq : Request) (w : ScriptedWorld)
  : (string + Response) * ScriptedWorld :=
  match script w with
  | [] => (inl "ReadTimeout", w)
  | out :: rest => (out, mkScripted (clock w + 1000000) rest)
  end.

Definition dquote : string := String (ascii_of_nat 34) EmptyString.

(** The text [{"size": 5}]. *)
Definition size_five_text : string := "{" ++ dquote ++ "size" ++ dquote ++ ": 5}".

(** The text [{"hits": {}}]. *)
Definition hits_text : string := "{" ++ dquote ++ "hits" ++ dquote ++ ": {}}".

(** A decoder for worked examples: it agrees with [json.loads] on the four
    texts [{}], [{"size": 5}], [[]] and [{"hits": {}}] and rejects every
    other text (among them [not json]). *)
Definition sample_json_loads (t : string) : string + json :=
  if String.eqb t "{}" then inr (JObject [])
  else if String.eqb t size_five_text then inr (JObject [("size", JInt 5)])
  else if String.eqb t "[]" then inr (JArray [])
  else if String.eqb t hits_text then inr (JObject [("hits", JObject [])])
  else inl "Expecting value: line 1 column 1 (char 0)".

Definition sample_repr (v : json) : string := "<value>".

Definition ok_login_response (cookie : string) : Response :=
  mkResponse 200 [("set-cookie", cookie)] "{}".

Definition unauthorized : Response :=
  mkResponse 401 [] "Unauthorized".

Definition ok_hits : Response := mkResponse 200 [] hits_text.

Definition sample_url : string := "https://logs.example.com".
Definition sample_version : string := "8.17.1".

(** A session just built from credentials, and one that logged in at time 0
    and holds the token [abc123]. *)
Definition elastic : KibanaSession :=
  KibanaSession_init (JString "elastic") (JString "secret").

Definition logged_in : KibanaSession :=
  mkKibanaSession (JString "elastic") (JString "secret") (Some "abc123") (Some 0).

(** The clock reads exactly 23 hours after the login; the backend would
    accept a new login. *)
Definition at_timeout : Obj ScriptedWorld :=
  mkObj logged_in
    (mkScripted SESSION_TIMEOUT [inr (ok_login_response "sid=def456; Path=/")]) [].

(** The backend accepts the login with a cookie header that ends right after
    the token, and with one that has no [sid=] at all. *)
Definition login_no_delimiter : Obj ScriptedWorld :=
  mkObj elastic (mkScripted 0 [inr (ok_login_response "sid=abc123")]) [].

Definition login_no_sid : Obj ScriptedWorld :=
  mkObj elastic (mkScripted 0 [inr (ok_login_response "Path=/; HttpOnly")]) [].

(** A backend that accepts every login and answers every proxied call with
    a 401. *)
Definition always_unauthorized : Obj ScriptedWorld :=
  mkObj logged_in
    (mkScripted 1000000
       [inr unauthorized; inr (ok_login_response "sid=def456; Path=/");
        inr unauthorized; inr (ok_login_response "sid=ghi789; Path=/");
        inr unauthorized])
    [].

(** One second after the login, with a backend that answers the next call
    with a search result. *)
Definition within_ttl : Obj ScriptedWorld :=
  mkObj logged_in (mkScripted 1000000 [inr ok_hits]) [].

(** The module before and after credentials were set and used. *)
Definition unconfigured : Module ScriptedWorld :=
  mkModule None [] (mkScripted 0 []) [].

Definition configured : Module ScriptedWorld :=
  mkModule (Some logged_in) []
    (mkScripted 1000000 [inr (ok_login_response "sid=def456; Path=/"); inr ok_hits])
    [].

(** A module as imported, in front of a backend that accepts two logins and
    answers three searches; and the same module a day later. *)
Definition start_of_day : Module ScriptedWorld :=
  mkModule None []
    (mkScripted 0
       [inr (ok_login_response "sid=abc123; Path=/; HttpOnly"); inr ok_hits;
        inr ok_hits;
        inr (ok_login_response "sid=def456; Path=/; HttpOnly"); inr ok_hits])
    [].

Definition a_day_later (m : Module ScriptedWorld) : Module ScriptedWorld :=
  mkModule (_session m) (closing m)
    (mkScripted (clock (m_world m) + 24 * 3600 * 1000000) (script (m_world m)))
    (m_exchanged m).

(** The URL and the cookie of each call made so far. *)
Definition calls_made (m : Module ScriptedWorld) : list (string * option string) :=
  map (fun x => (url (fst x), dict_get "Cookie" (req_headers (fst x))))
      (m_exchanged m).

(** An accepted login at time 0, and the session it leaves, read at the
    last instant of its 23 hours. *)
Definition login_ok : Obj ScriptedWorld :=
  mkObj elastic
    (mkScripted 0 [inr (ok_login_response "sid=abc123; Path=/; HttpOnly")]) [].

Definition at_end_of_window : Obj ScriptedWorld :=
  mkObj (mkKibanaSession (JString "elastic") (JString "secret")
           (Some "abc123") (Some 1000000))
        (mkScripted (1000000 + SESSION_TIMEOUT) []) [].

(** A login answered with an empty token, and the session it leaves, read
    one second later. *)
Definition login_empty_token : Obj ScriptedWorld :=
  mkObj elastic (mkScripted 0 [inr (ok_login_response "sid=; Path=/")]) [].

Definition holds_empty_token : Obj ScriptedWorld :=
  mkObj (mkKibanaSession (JString "elastic") (JString "secret")
           (Some "") (Some 1000000))
        (mkScripted 2000000 [inr (ok_login_response "sid=abc123; Path=/")]) [].

Section Server.

(** [KIBANA_URL] and [KIBANA_VERSION] are read from the environment when the
    module is imported. *)
Variable KIBANA_URL : string.
Variable KIBANA_VERSION : string.

(** The world outside the process: the backend behind [client.post] and the
    wall clock read by [datetime.now()] (microseconds). *)
Variable W : Type.
Variable datetime_now : W -> Z.
Variable post : Request -> W -> (string + Response) * W.

(** Library functions: [json.loads] on a [str] (the left case carries the
    message of the [JSONDecodeError]) and the text an f-string produces for a
    value that is not a [str]. *)
Variable json_loads : string -> string + json.
Variable py_repr : json -> string.

Definition client_post (u : string) (body : json) (hs : dict string)
  : M (Obj W) Response :=
  fun st =>
    let rq := mkRequest u body hs in
    let '(out, w') := post rq (world st) in
    let st' := mkObj (self st) w' (exchanged st ++ [(rq, out)])%list in
    match out with
    | inr response => (inr response, st')
    | inl msg => (inl (HTTPError msg), st')
    end.

Definition now : M (Obj W) Z := gets (fun st => datetime_now (world st)).

Definition set_self (f : KibanaSession -> KibanaSession) : M (Obj W) unit :=
  modify (fun st => mkObj (f (self st)) (world st) (exchanged st)).

(** [response.json()] *)
Definition response_json (r : Response) : exn + json :=
  match json_loads (text r) with
  | inr v => inr v
  | inl msg => inl (JSONDecodeError msg)
  end.

(** [_is_session_valid] *)
Definition _is_session_valid : M (Obj W) bool :=
  s <- gets self ;;
  match sid_missing (sid_cookie s), session_created_at s with
  | false, Some created =>
      t <- now ;;
      if t - created >? SESSION_TIMEOUT then ret false else ret true
  | _, _ => ret false
  end.

Definition login_url : string := KIBANA_URL ++ "/internal/security/login".

Definition login_payload (s : KibanaSession) : json :=
  JObject [("providerType", JString "basic");
           ("providerName", JString "cloud-basic");
           ("currentURL", JString (KIBANA_URL ++ "/login?msg=LOGGED_OUT"));
           ("params", JObject [("username", username s);
                               ("password", password s)])].

Definition login_headers : dict string :=
  [("Content-Type", "application/json");
   ("kbn-version", KIBANA_VERSION);
   ("kbn-xsrf", "kibana")].

(** [login] (the debug line written to stderr is not part of the state). *)
Definition login : M (Obj W) unit :=
  s <- gets self ;;
  try_except
    (response <- client_post login_url (login_payload s) login_headers ;;
     if status_code response =? 200 then
       let set_cookie := headers_get (headers response) "set-cookie" "" in
       if str_contains "sid=" set_cookie then
         set_self (fun s => mkKibanaSession (username s) (password s)
                              (Some (extract_sid set_cookie)) (session_created_at s)) ;;;
         t <- now ;;
         set_self (fun s => mkKibanaSession (username s) (password s)
                              (sid_cookie s) (Some t))
       else
         raise (Exception "登录成功但未获取到 sid cookie")
     else
       raise (Exception ("登录失败: " ++ str_of_int (status_code response)
                           ++ " - " ++ text response)))
    (fun e => raise (Exception ("Kibana 登录错误: " ++ str_exn e))).

(** [ensure_authenticated] *)
Definition ensure_authenticated : M (Obj W) unit :=
  valid <- _is_session_valid ;;
  if valid then ret tt else login.

Definition proxy_headers (cookie : option string) : dict string :=
  [("Cookie", "sid=" ++ format_sid cookie);
   ("kbn-xsrf", "kibana");
   ("kbn-version", KIBANA_VERSION);
   ("Content-Type", "application/json");
   ("x-elastic-internal-origin", "Kibana")].

(** [quote(path, safe='')]: anything but a [str] is rejected. *)
Definition py_quote (path : json) : exn + string :=
  match path with
  | JString p => inr (quote p)
  | _ => inl TypeError
  end.

Definition proxy_url (encoded_path : string) : string :=
  KIBANA_URL ++ "/api/console/proxy?path=" ++ encoded_path ++ "&method=POST".

(** [request] *)
Definition request (path : json) (query : json) : M (Obj W) json :=
  ensure_authenticated ;;;
  encoded_path <- lift (py_quote path) ;;
  let url := proxy_url encoded_path in
  s <- gets self ;;
  let headers := proxy_headers (sid_cookie s) in
  try_except
    (response <- client_post url query headers ;;
     response <-
       (if status_code response =? 401 then
          login ;;;
          s <- gets self ;;
          let headers := dict_set "Cookie" ("sid=" ++ format_sid (sid_cookie s)) headers in
          client_post url query headers
        else ret response) ;;
     if status_code response =? 200 then
       lift (response_json response)
     else
       raise (Exception ("请求失败: " ++ str_of_int (status_code response)
                           ++ " - " ++ text response)))
    (fun e => raise (Exception ("Kibana 请求错误: " ++ str_exn e))).

(** [close]: [client.aclose()] touches only the HTTP client. *)
Definition close : M (Obj W) unit := ret tt.

(** ** Module-level functions: the global [_session] *)

(** [get_session] *)
Definition get_session : M (Module W) KibanaSession :=
  g <- gets _session ;;
  match g with
  | None => raise (Exception "Kibana 会话未初始化，请先设置用户名和密码")
  | Some s => ret s
  end.

(** [set_credentials] *)
Definition set_credentials (u p : json) : M (Module W) unit :=
  modify (fun m =>
    let closing' := match _session m with
                    | Some old => (closing m ++ [old])%list
                    | None => closing m
                    end in
    mkModule (Some (KibanaSession_init u p)) closing' (m_world m) (m_exchanged m)).

(** A method call on the object the global [_session] refers to: what the
    method does to the object is seen through the global afterwards. *)
Definition on_session {A} (session : KibanaSession) (method : M (Obj W) A)
  : M (Module W) A :=
  fun m =>
    let '(r, o) := method (mkObj session (m_world m) (m_exchanged m)) in
    (r, mkModule (Some (self o)) (closing m) (world o) (exchanged o)).

(** ** Tool handlers

    Each handler is modelled up to the value [session.request] returns; the
    rendering of that value as text is presentation. *)

(** [args[key]] *)
Definition subscript (args : dict json) (key : string) : exn + json :=
  match dict_get key args with
  | Some v => inr v
  | None => inl (KeyError key)
  end.

(** [json.loads(x)] for an argument value. *)
Definition py_json_loads (x : json) : exn + json :=
  match x with
  | JString s =>
      match json_loads s with
      | inr v => inr v
      | inl msg => inl (JSONDecodeError msg)
      end
  | _ => inl TypeError
  end.

(** [f"{x}"] *)
Definition py_str (x : json) : string :=
  match x with
  | JString s => s
  | _ => py_repr x
  end.

(** [x == "literal"] *)
Definition eq_str (x : json) (lit : string) : bool :=
  match x with
  | JString s => String.eqb s lit
  | _ => false
  end.

(** ["key" in x] *)
Definition py_in (key : string) (x : json) : exn + bool :=
  match x with
  | JObject d => inr (dict_contains key d)
  | JArray l => inr (existsb (fun y => eq_str y key) l)
  | JString s => inr (str_contains key s)
  | _ => inl TypeError
  end.

(** [x["key"] = v] *)
Definition py_setitem (x : json) (key : string) (v : json) : exn + json :=
  match x with
  | JObject d => inr (JObject (dict_set key v d))
  | _ => inl TypeError
  end.

Definition default_fields : json :=
  JArray [JString "@timestamp"; JString "kubernetes.container_name"; JString "log"].

Definition range_query (time_range : json) : json :=
  JObject [("range", JObject [("@timestamp", JObject [("gte", time_range)])])].

Definition sort_desc : json :=
  JArray [JObject [("@timestamp", JObject [("order", JString "desc")])]].

Definition search_path (index_pattern : json) : json :=
  JString ("/" ++ py_str index_pattern ++ "/_search").

(** Lines 420-424: make sure the query has [size] and [_source]. *)
Definition ensure_size_source (query_dsl size fields : json) : exn + json :=
  match py_in "size" query_dsl with
  | inl e => inl e
  | inr has_size =>
      match (if has_size then inr query_dsl
             else py_setitem query_dsl "size" size) with
      | inl e => inl e
      | inr query_dsl =>
          match py_in "_source" query_dsl with
          | inl e => inl e
          | inr has_source =>
              if has_source then inr query_dsl
              else py_setitem query_dsl "_source" fields
          end
      end
  end.

(** [handle_search_logs] *)
Definition handle_search_logs (args : dict json) : M (Obj W) json :=
  query_str <- lift (subscript args "query") ;;
  let time_range := dict_get_default "time_range" (JString "now-1h") args in
  let size := dict_get_default "size" (JInt 20) args in
  let index_pattern := dict_get_default "index_pattern" (JString "logstash-*") args in
  let fields := dict_get_default "fields" default_fields args in
  query_dsl <-
    lift (match py_json_loads query_str with
          | inl (JSONDecodeError _) =>
              inr (JObject
                [("query", JObject [("bool", JObject
                    [("must", JArray [JObject [("match", JObject [("log", query_str)])]]);
                     ("filter", JArray [range_query time_range])])]);
                 ("size", size);
                 ("_source", fields);
                 ("sort", sort_desc)])
          | r => r
          end) ;;
  query_dsl <- lift (ensure_size_source query_dsl size fields) ;;
  request (search_path index_pattern) query_dsl.

(** Lines 453-465 of [handle_aggregate_logs]: the base query, combined with
    the optional filter. *)
Definition aggregate_base_query (args : dict json) : exn + json :=
  let time_range := dict_get_default "time_range" (JString "now-1h") args in
  let base_query := range_query time_range in
  match dict_get "filter" args with
  | Some filter_query =>
      if truthy filter_query then
        match py_json_loads filter_query with
        | inr filter_dsl =>
            inr (JObject [("bool", JObject [("must", JArray [base_query; filter_dsl])])])
        | inl (JSONDecodeError _) => inr base_query
        | inl e => inl e
        end
      else inr base_query
  | None => inr base_query
  end.

(** Lines 467-508: the query for each aggregation type. *)
Definition aggregate_query_dsl (args : dict json) (agg_type base_query : json)
  : exn + json :=
  if eq_str agg_type "by_service" then
    inr (JObject
      [("size", JInt 0);
       ("query", base_query);
       ("aggs", JObject [("services", JObject [("terms", JObject
          [("field", JString "kubernetes.container_name.keyword");
           ("size", JInt 20);
           ("order", JObject [("_count", JString "desc")])])])])])
  else if eq_str agg_type "by_time" then
    inr (JObject
      [("size", JInt 0);
       ("query", base_query);
       ("aggs", JObject [("logs_over_time", JObject [("date_histogram", JObject
          [("field", JString "@timestamp");
           ("fixed_interval", JString "5m")])])])])
  else if eq_str agg_type "custom" then
    match dict_get "custom_aggregation" args with
    | Some custom_agg =>
        if truthy custom_agg then
          match py_json_loads custom_agg with
          | inr agg_dsl =>
              inr (JObject [("size", JInt 0); ("query", base_query); ("aggs", agg_dsl)])
          | inl (JSONDecodeError msg) =>
              inl (ValueError ("custom_aggregation 不是有效的 JSON: " ++ msg))
          | inl e => inl e
          end
        else inl (ValueError "custom 聚合类型需要提供 custom_aggregation 参数")
    | None => inl (ValueError "custom 聚合类型需要提供 custom_aggregation 参数")
    end
  else inl (ValueError ("未知的聚合类型: " ++ py_str agg_type)).

(** [handle_aggregate_logs] *)
Definition handle_aggregate_logs (args : dict json) : M (Obj W) json :=
  agg_type <- lift (subscript args "aggregation_type") ;;
  let index_pattern := dict_get_default "index_pattern" (JString "logstash-*") args in
  base_query <- lift (aggregate_base_query args) ;;
  query_dsl <- lift (aggregate_query_dsl args agg_type base_query) ;;
  request (search_path index_pattern) query_dsl.

(** [handle_get_latest_logs] *)
Definition handle_get_latest_logs (args : dict json) : M (Obj W) json :=
  let service := dict_get_default "service" JNull args in
  let size := dict_get_default "size" (JInt 10) args in
  let index_pattern := dict_get_default "index_pattern" (JString "logstash-*") args in
  let query_dsl :=
    [("query", JObject [("match_all", JObject [])]);
     ("size", size);
     ("sort", sort_desc);
     ("_source", default_fields)] in
  let query_dsl :=
    if truthy service then
      dict_set "query"
        (JObject [("match", JObject [("kubernetes.container_name", service)])])
        query_dsl
    else query_dsl in
  request (search_path index_pattern) (JObject query_dsl).

Definition error_keywords : dict (list string) :=
  [("error", ["error"; "Error"; "ERROR"]);
   ("exception", ["exception"; "Exception"; "EXCEPTION"]);
   ("critical", ["critical"; "Critical"; "CRITICAL"; "fatal"; "Fatal"; "FATAL"]);
   ("all", ["error"; "Error"; "ERROR"; "exception"; "Exception"; "fail"; "Fail"; "FAIL"])].

(** [error_keywords.get(severity, error_keywords["all"])]: a list or a dict
    cannot be hashed. *)
Definition keywords_for (severity : json) : exn + list string :=
  let all := dict_get_default "all" [] error_keywords in
  match severity with
  | JString s => inr (dict_get_default s all error_keywords)
  | JArray _ | JObject _ => inl TypeError
  | _ => inr all
  end.

(** [handle_search_errors] *)
Definition handle_search_errors (args : dict json) : M (Obj W) json :=
  let service := dict_get_default "service" JNull args in
  let severity := dict_get_default "severity" (JString "all") args in
  let time_range := dict_get_default "time_range" (JString "now-1h") args in
  let size := dict_get_default "size" (JInt 20) args in
  let index_pattern := dict_get_default "index_pattern" (JString "logstash-*") args in
  keywords <- lift (keywords_for severity) ;;
  let must_clauses :=
    [JObject [("bool", JObject
       [("should", JArray (map (fun keyword =>
            JObject [("match", JObject [("log", JString keyword)])]) keywords));
        ("minimum_should_match", JInt 1)])]] in
  let must_clauses :=
    if truthy service then
      (must_clauses ++
        [JObject [("match", JObject [("kubernetes.container_name", service)])]])%list
    else must_clauses in
  let query_dsl :=
    JObject
      [("query", JObject [("bool", JObject
          [("must", JArray must_clauses);
           ("filter", JArray [range_query time_range])])]);
       ("size", size);
       ("sort", sort_desc);
       ("_source", default_fields)] in
  request (search_path index_pattern) query_dsl.

(** [handle_raw_query] *)
Definition handle_raw_query (args : dict json) : M (Obj W) json :=
  let path := dict_get_default "path" (JString "/logstash-*/_search") args in
  query_str <- lift (subscript args "query") ;;
  query_dsl <-
    lift (match py_json_loads query_str with
          | inl (JSONDecodeError msg) =>
              inl (ValueError ("查询不是有效的 JSON: " ++ msg))
          | r => r
          end) ;;
  request path query_dsl.

(** What [call_tool] hands back: the confirmation text of
    [kibana_set_credentials], or the rendering of a query result. *)
Inductive ToolResult : Type :=
| Text (t : string)
| Rendered (result : json).

Definition newline : string := String (ascii_of_nat 10) EmptyString.

(** [call_tool] *)
Definition call_tool (name : string) (arguments : dict json) : M (Module W) ToolResult :=
  if String.eqb name "kibana_set_credentials" then
    username <- lift (subscript arguments "username") ;;
    password <- lift (subscript arguments "password") ;;
    set_credentials username password ;;;
    ret (Text ("✅ Kibana 凭证已设置" ++ newline ++ "用户名: " ++ py_str username
                 ++ newline ++ "会话将在首次请求时自动建立"))
  else
    session <- get_session ;;
    if String.eqb name "kibana_search_logs" then
      r <- on_session session (handle_search_logs arguments) ;; ret (Rendered r)
    else if String.eqb name "kibana_aggregate_logs" then
      r <- on_session session (handle_aggregate_logs arguments) ;; ret (Rendered r)
    else if String.eqb name "kibana_get_latest_logs" then
      r <- on_session session (handle_get_latest_logs arguments) ;; ret (Rendered r)
    else if String.eqb name "kibana_search_errors" then
      r <- on_session session (handle_search_errors arguments) ;; ret (Rendered r)
    else if String.eqb name "kibana_raw_query" then
      r <- on_session session (handle_raw_query arguments) ;; ret (Rendered r)
    else
      raise (ValueError ("未知工具: " ++ name)).

(** ** Vocabulary for the statements *)

(** The two calls the module makes through [client.post]. *)
Definition login_request (s : KibanaSession) : Request :=
  mkRequest login_url (login_payload s) login_headers.

Definition proxy_request (path : string) (query : json) (cookie : option string)
  : Request :=
  mkRequest (proxy_url (quote path)) query (proxy_headers cookie).

Definition is_login_call (x : Exchange) : bool :=
  String.eqb (url (fst x)) login_url.

Definition is_proxy_call (x : Exchange) : bool :=
  String.prefix (KIBANA_URL ++ "/api/console/proxy?path=") (url (fst x)).

(** The value of the [set-cookie] header of a login response. *)
Definition set_cookie_of (r : Response) : string :=
  headers_get (headers r) "set-cookie" "".

(** A login response is accepted when it has status 200 and its cookie header
    contains [sid=]. *)
Definition login_accepted (r : Response) : bool :=
  (status_code r =? 200) && str_contains "sid=" (set_cookie_of r).

(** The session is absent ([not self.sid_cookie or not
    self.session_created_at]). *)
Definition session_absent (s : KibanaSession) : Prop :=
  sid_missing (sid_cookie s) = true \/ session_created_at s = None.

(** What [request] makes of the last answer to the proxied call. *)
Definition request_outcome (out : string + Response) : exn + json :=
  match out with
  | inl msg => inl (Exception ("Kibana 请求错误: " ++ msg))
  | inr r =>
      if status_code r =? 200 then
        match json_loads (text r) with
        | inr v => inr v
        | inl msg => inl (Exception ("Kibana 请求错误: " ++ msg))
        end
      else
        inl (Exception ("Kibana 请求错误: 请求失败: "
                          ++ str_of_int (status_code r) ++ " - " ++ text r))
  end.

(** What [login] raises for an answer it does not accept. *)
Definition login_error (out : string + Response) : exn :=
  match out with
  | inl msg => Exception ("Kibana 登录错误: " ++ msg)
  | inr r =>
      if status_code r =? 200 then
        Exception "Kibana 登录错误: 登录成功但未获取到 sid cookie"
      else
        Exception ("Kibana 登录错误: 登录失败: "
                     ++ str_of_int (status_code r) ++ " - " ++ text r)
  end.

(** [_is_session_valid] as a function of the object and the clock. *)
Definition session_valid_at (s : KibanaSession) (t : Z) : bool :=
  match sid_missing (sid_cookie s), session_created_at s with
  | false, Some created => negb (t - created >? SESSION_TIMEOUT)
  | _, _ => false
  end.

(** The stored session is older than [SESSION_TIMEOUT] at time [t]. *)
Definition session_expired (s : KibanaSession) (t : Z) : Prop :=
  exists created, session_created_at s = Some created /\ t - created > SESSION_TIMEOUT.

(** The calls the [try] block of [request] makes for the path [p] when the
    session holds the token [cookie], with the result of the method: one
    proxied call whose answer is not a 401; or a proxied call answered 401
    and a login that fails; or a proxied call answered 401, an accepted login
    and one more proxied call carrying the new token, whose answer decides
    the result whatever its status. *)
Inductive request_calls (p : string) (query : json) (cookie : option string)
  : list Exchange -> exn + json -> Prop :=
| calls_once out :
    (forall r, out = inr r -> status_code r <> 401) ->
    request_calls p query cookie
      [(proxy_request p query cookie, out)]
      (request_outcome out)
| calls_relogin_failed r s out :
    status_code r = 401 ->
    (forall lr, out = inr lr -> login_accepted lr = false) ->
    request_calls p query cookie
      [(proxy_request p query cookie, inr r); (login_request s, out)]
      (inl (Exception ("Kibana 请求错误: " ++ str_exn (login_error out))))
| calls_retried r s lr out :
    status_code r = 401 ->
    login_accepted lr = true ->
    request_calls p query cookie
      [(proxy_request p query cookie, inr r);
       (login_request s, inr lr);
       (proxy_request p query (Some (extract_sid (set_cookie_of lr))), out)]
      (request_outcome out).

(** The module as imported: [_session = None] (line 159), nothing sent. *)
Definition initial_module (w : W) : Module W := mkModule None [] w [].

(** The exception [get_session] raises while no credential is set. *)
Definition not_configured : exn :=
  Exception "Kibana 会话未初始化，请先设置用户名和密码".

(** The [params] member of the login payload. *)
Definition login_params (rq : Request) : option json :=
  match json_payload rq with
  | JObject d => dict_get "params" d
  | _ => None
  end.

(** The token and the creation time are set together or not at all. *)
Definition session_paired (s : KibanaSession) : Prop :=
  sid_cookie s = None <-> session_created_at s = None.

(** ** [list_tools]

    What [mcp.types.Tool] is built from: a name, a description and the JSON
    schema of the arguments. *)
Record Tool : Type := mkTool {
  name : string;
  description : string;
  inputSchema : json
}.

Definition string_property (descr : string) : json :=
  JObject [("type", JString "string"); ("description", JString descr)].

Definition string_property_default (descr default : string) : json :=
  JObject [("type", JString "string"); ("description", JString descr);
           ("default", JString default)].

Definition integer_property (descr : string) (default minimum maximum : Z) : json :=
  JObject [("type", JString "integer"); ("description", JString descr);
           ("default", JInt default); ("minimum", JInt minimum);
           ("maximum", JInt maximum)].

(** [list_tools] *)
Definition list_tools : list Tool :=
  [ mkTool "kibana_set_credentials"
      "设置 Kibana 登录凭证（用户名和密码）"
      (JObject
         [("type", JString "object");
          ("properties", JObject
             [("username", string_property "Kibana 用户名");
              ("password", string_property "Kibana 密码")]);
          ("required", JArray [JString "username"; JString "password"])]);
    mkTool "kibana_search_logs"
      "搜索 Kibana 日志。支持自定义 Elasticsearch DSL 查询或简单的关键词搜索"
      (JObject
         [("type", JString "object");
          ("properties", JObject
             [("query", string_property
                 "搜索关键词（简单搜索）或完整的 Elasticsearch DSL 查询 JSON 字符串");
              ("time_range", string_property_default
                 "时间范围，如 'now-1h', 'now-24h', 'now-7d' 等" "now-1h");
              ("size", integer_property "返回结果数量" 20 1 1000);
              ("index_pattern", string_property_default "索引模式" "logstash-*");
              ("fields", JObject
                 [("type", JString "array");
                  ("items", JObject [("type", JString "string")]);
                  ("description", JString "要返回的字段列表");
                  ("default", JArray [JString "@timestamp";
                                      JString "kubernetes.container_name";
                                      JString "log"])])]);
          ("required", JArray [JString "query"])]);
    mkTool "kibana_aggregate_logs"
      "聚合统计 Kibana 日志。可以按服务、时间等维度统计"
      (JObject
         [("type", JString "object");
          ("properties", JObject
             [("aggregation_type", JObject
                 [("type", JString "string");
                  ("enum", JArray [JString "by_service"; JString "by_time";
                                   JString "custom"]);
                  ("description", JString
                     "聚合类型: by_service(按服务统计), by_time(按时间统计), custom(自定义聚合)")]);
              ("time_range", string_property_default
                 "时间范围，如 'now-1h', 'now-24h' 等" "now-1h");
              ("filter", string_property
                 "可选的过滤条件（Elasticsearch DSL JSON 字符串）");
              ("custom_aggregation", string_property
                 "自定义聚合查询（仅当 aggregation_type 为 'custom' 时使用）");
              ("index_pattern", string_property_default "索引模式" "logstash-*")]);
          ("required", JArray [JString "aggregation_type"])]);
    mkTool "kibana_get_latest_logs"
      "快速获取最新的日志记录"
      (JObject
         [("type", JString "object");
          ("properties", JObject
             [("service", string_property
                 "服务名称（kubernetes.container_name），为空则返回所有服务");
              ("size", integer_property "返回数量" 10 1 100);
              ("index_pattern", string_property_default "索引模式" "logstash-*")])]);
    mkTool "kibana_search_errors"
      "搜索错误日志（包含 error、exception、fail 等关键词）"
      (JObject
         [("type", JString "object");
          ("properties", JObject
             [("service", string_property
                 "服务名称（kubernetes.container_name），为空则搜索所有服务");
              ("severity", JObject
                 [("type", JString "string");
                  ("enum", JArray [JString "error"; JString "exception";
                                   JString "critical"; JString "all"]);
                  ("description", JString "错误严重程度");
                  ("default", JString "all")]);
              ("time_range", string_property_default "时间范围" "now-1h");
              ("size", integer_property "返回数量" 20 1 100);
              ("index_pattern", string_property_default "索引模式" "logstash-*")])]);
    mkTool "kibana_raw_query"
      "执行原始的 Elasticsearch DSL 查询（高级用户）"
      (JObject
         [("type", JString "object");
          ("properties", JObject
             [("path", string_property_default
                 "Elasticsearch 路径，如 '/logstash-*/_search'" "/logstash-*/_search");
              ("query", string_property
                 "完整的 Elasticsearch DSL 查询 JSON 字符串")]);
          ("required", JArray [JString "query"])]) ].

(** Reading a schema: a member of an object, the names listed under
    [required], the [default] of a property and the strings of its [enum]. *)
Definition member (k : string) (v : json) : option json :=
  match v with
  | JObject d => dict_get k d
  | _ => None
  end.

Definition strings_of (v : option json) : list string :=
  match v with
  | Some (JArray l) =>
      flat_map (fun x => match x with JString s => [s] | _ => [] end) l
  | _ => []
  end.


Definition schema_property (t : Tool) (k : string) : option json :=
  match member "properties" (inputSchema t) with
  | Some props => member k props
  | None => None
  end.

Definition schema_default (t : Tool) (k : string) : option json :=
  match schema_property t k with
  | Some prop => member "default" prop
  | None => None
  end.

Definition schema_enum (t : Tool) (k : string) : list string :=
  match schema_property t k with
  | Some prop => strings_of (member "enum" prop)
  | None => []
  end.

(** The handlers [call_tool] dispatches to. *)
Definition handlers : list (string * (dict json -> M (Obj W) json)) :=
  [("kibana_search_logs", handle_search_logs);
   ("kibana_aggregate_logs", handle_aggregate_logs);
   ("kibana_get_latest_logs", handle_get_latest_logs);
   ("kibana_search_errors", handle_search_errors);
   ("kibana_raw_query", handle_raw_query)].

(** The [enum] a named tool advertises for one of its arguments. *)
Definition advertised_enum (tool key : string) : list string :=
  match find (fun t => String.eqb (name t) tool) list_tools with
  | Some t => schema_enum t key
  | None => []
  end.

(** The message of the [ValueError] for an aggregation type that is not
    known. *)
Definition unknown_aggregation (agg_type : json) : exn :=
  ValueError ("未知的聚合类型: " ++ py_str agg_type).

(** Two of the advertised tools, for the worked examples. *)
Definition search_logs_tool : Tool := nth 1 list_tools (mkTool "" "" JNull).


(** The last steps of [request]: the answer [out] to the final proxied call
    is turned into the result; the goal is left as [request_calls] with the
    result written as [request_outcome out]. *)
Ltac name_outcome H200 Hj :=
  unfold raise; cbn beta iota; eexists;
  (split; [cbn [exchanged]; rewrite <- ?app_assoc; reflexivity | ]);
  cbn [app];
  match goal with
  | |- request_calls _ _ _ [_; _; (_, ?o)] ?res =>
      replace res with (request_outcome o)
        by (unfold request_outcome; rewrite ?H200, ?Hj; reflexivity)
  | |- request_calls _ _ _ [(_, ?o)] ?res =>
      replace res with (request_outcome o)
        by (unfold request_outcome; rewrite ?H200, ?Hj; reflexivity)
  end.

Ltac settle_response r :=
  let H200 := fresh "H200" in
  let Hj := fresh "Hj" in
  destruct (status_code r =? 200) eqn:H200;
  [ unfold lift, response_json; destruct (json_loads (text r)) eqn:Hj | ];
  name_outcome H200 Hj.

Ltac settle_outcome out :=
  let m := fresh "m" in
  let r := fresh "r" in
  let H := fresh "H" in
  destruct out as [m | r];
  [ name_outcome H H | settle_response r ].

(** ** Basic facts *)

Lemma app_one_neq {A} (l : list A) (x : A) : (l ++ [x])%list <> l.
Proof.
  intro H. apply (f_equal (@List.length A)) in H.
  rewrite length_app in H. simpl in H. lia.
Qed.

Lemma prefix_append_cancel (a b c : string) :
  String.prefix (a ++ b) (a ++ c) = String.prefix b c.
Proof.
  induction a as [|ch a IH]; simpl; [reflexivity|].
  destruct (Ascii.ascii_dec ch ch) as [_|n]; [exact IH | contradiction].
Qed.

Lemma prefix_append_self (a b : string) : String.prefix a (a ++ b) = true.
Proof.
  induction a as [|ch a IH]; simpl.
  - destruct b; reflexivity.
  - destruct (Ascii.ascii_dec ch ch) as [_|n]; [exact IH | contradiction].
Qed.

Lemma login_is_not_proxy (s : KibanaSession) (out : string + Response) :
  is_proxy_call (login_request s, out) = false.
Proof.
  unfold is_proxy_call, login_request, login_url; cbn [url fst].
  rewrite prefix_append_cancel. reflexivity.
Qed.

Lemma proxy_is_proxy path query cookie (out : string + Response) :
  is_proxy_call (proxy_request path query cookie, out) = true.
Proof.
  unfold is_proxy_call, proxy_request, proxy_url; cbn [url fst].
  rewrite prefix_append_cancel.
  apply (prefix_append_self "/api/console/proxy?path=").
Qed.

(** [login] makes exactly one call; it stores the token and the time of the
    answer when the answer is accepted and leaves the object as it was
    otherwise. *)
Lemma login_run (st : Obj W) :
  login st =
    let rq := login_request (self st) in
    let '(out, w') := post rq (world st) in
    let log' := (exchanged st ++ [(rq, out)])%list in
    match out with
    | inr r =>
        if login_accepted r then
          (inr tt,
           mkObj (mkKibanaSession (username (self st)) (password (self st))
                    (Some (extract_sid (set_cookie_of r)))
                    (Some (datetime_now w')))
                 w' log')
        else (inl (login_error out), mkObj (self st) w' log')
    | inl _ => (inl (login_error out), mkObj (self st) w' log')
    end.
Proof.
  unfold login, login_accepted, login_error, set_cookie_of, login_request,
    bind, try_except, client_post, set_self, modify, now, gets, raise, ret.
  cbn beta iota zeta.
  cbn [self world exchanged].
  destruct (post _ (world st)) as [[msg | r] w']; [reflexivity|].
  destruct (status_code r =? 200); cbn [andb]; [|reflexivity].
  destruct (str_contains "sid=" _); reflexivity.
Qed.

Lemma is_session_valid_run (st : Obj W) :
  _is_session_valid st =
    (inr (session_valid_at (self st) (datetime_now (world st))), st).
Proof.
  unfold _is_session_valid, session_valid_at, bind, now, gets, ret.
  destruct (sid_missing (sid_cookie (self st))); [reflexivity|].
  destruct (session_created_at (self st)) as [created|]; [|reflexivity].
  cbn beta iota.
  destruct (datetime_now (world st) - created >? SESSION_TIMEOUT); reflexivity.
Qed.

Lemma ensure_authenticated_run (st : Obj W) :
  ensure_authenticated st =
    if session_valid_at (self st) (datetime_now (world st))
    then (inr tt, st) else login st.
Proof.
  unfold ensure_authenticated, bind. rewrite is_session_valid_run.
  destruct (session_valid_at _ _); reflexivity.
Qed.

Lemma session_valid_at_false (s : KibanaSession) (t : Z) :
  session_valid_at s t = false <-> session_absent s \/ session_expired s t.
Proof.
  unfold session_valid_at, session_absent, session_expired.
  destruct (sid_missing (sid_cookie s)).
  - split; auto.
  - destruct (session_created_at s) as [created|].
    + destruct (Z.gtb_spec (t - created) SESSION_TIMEOUT) as [Hgt|Hle]; simpl.
      * split; [intros _|reflexivity]. right. exists created. split; [reflexivity|lia].
      * split; [discriminate|].
        intros [[H|H]|[c [H1 H2]]]; try discriminate.
        inversion H1; subst. lia.
    + split; auto.
Qed.

Lemma login_exchanged (st : Obj W) :
  exists out,
    exchanged (snd (login st)) = (exchanged st ++ [(login_request (self st), out)])%list.
Proof.
  rewrite login_run. cbn zeta.
  destruct (post _ (world st)) as [[msg | r] w'].
  - eexists; reflexivity.
  - destruct (login_accepted r); eexists; reflexivity.
Qed.

(** C2, as the code has it: [ensure_authenticated] calls the login endpoint
    if and only if the session is absent (no token, an empty token or no
    creation time) or the time since its creation is strictly greater than
    [SESSION_TIMEOUT] (23 hours); with a token present and an age of at most
    23 hours it returns at once, leaving the object, the world and the log of
    calls untouched. *)
Theorem ensure_authenticated_login_iff (st : Obj W) :
  let stale := session_absent (self st)
               \/ session_expired (self st) (datetime_now (world st)) in
  let '(res, st') := ensure_authenticated st in
  (exchanged st' <> exchanged st <-> stale) /\
  (stale -> exists out,
     exchanged st' = (exchanged st ++ [(login_request (self st), out)])%list) /\
  (~ stale -> res = inr tt /\ st' = st).
Proof.
  cbn zeta. rewrite ensure_authenticated_run.
  pose proof (session_valid_at_false (self st) (datetime_now (world st))) as Hv.
  destruct (session_valid_at (self st) (datetime_now (world st))).
  - assert (Hn : ~ (session_absent (self st)
                    \/ session_expired (self st) (datetime_now (world st)))).
    { intro H. apply Hv in H. discriminate. }
    split; [|split].
    + split; [intro H; exfalso; apply H; reflexivity | intro H; contradiction].
    + intro H; contradiction.
    + intros _; split; reflexivity.
  - assert (Hs : session_absent (self st)
                 \/ session_expired (self st) (datetime_now (world st))).
    { apply Hv. reflexivity. }
    destruct (login_exchanged st) as [out Hout].
    destruct (login st) as [res st']. cbn [snd] in Hout.
    split; [|split].
    + split; [intros _; exact Hs|].
      intros _. rewrite Hout. apply app_one_neq.
    + intros _. exists out. exact Hout.
    + intro H; contradiction.
Qed.

(** C4: when the backend answers the login call with response [r], [login]
    raises its login error exactly when the status is not 200 or the
    [set-cookie] value has no [sid=]; a missing [sid=] gives that error and
    nothing else; in both cases the stored session is what it was before the
    call.  Otherwise the call succeeds and the token taken from the header is
    stored together with the time of the answer. *)
Theorem login_fails_iff_rejected (st : Obj W) (r : Response) (w' : W) :
  post (login_request (self st)) (world st) = (inr r, w') ->
  let rejected := status_code r <> 200
                  \/ str_contains "sid=" (set_cookie_of r) = false in
  let '(res, st') := login st in
  ((exists msg, res = inl (Exception ("Kibana 登录错误: " ++ msg))) <-> rejected) /\
  (rejected -> self st' = self st) /\
  (status_code r = 200 -> str_contains "sid=" (set_cookie_of r) = false ->
     res = inl (Exception "Kibana 登录错误: 登录成功但未获取到 sid cookie")) /\
  (~ rejected ->
     res = inr tt /\
     sid_cookie (self st') = Some (extract_sid (set_cookie_of r)) /\
     session_created_at (self st') = Some (datetime_now w')).
Proof.
  intros Hpost. cbn zeta. rewrite login_run. cbn zeta. rewrite Hpost.
  unfold login_accepted, login_error.
  destruct (Z.eqb_spec (status_code r) 200) as [H200|H200]; cbn [andb].
  - destruct (str_contains "sid=" (set_cookie_of r)) eqn:Hsid.
    + split; [|split; [|split]].
      * split; [intros [msg H]; discriminate | intros [H|H]; [contradiction|discriminate]].
      * intros [H|H]; [contradiction|discriminate].
      * intros _ H; discriminate.
      * intros _. repeat split.
    + split; [|split; [|split]].
      * split; [intros _; right; reflexivity|].
        intros _. exists "登录成功但未获取到 sid cookie". reflexivity.
      * intros _. reflexivity.
      * intros _ _. reflexivity.
      * intros H. exfalso. apply H. right. reflexivity.
  - split; [|split; [|split]].
    + split; [intros _; left; exact H200|].
      intros _. eexists. reflexivity.
    + intros _. reflexivity.
    + intros H; contradiction.
    + intros H. exfalso. apply H. left. exact H200.
Qed.

Lemma ensure_authenticated_exchanged (st : Obj W) :
  exists auth,
    exchanged (snd (ensure_authenticated st)) = (exchanged st ++ auth)%list /\
    (auth = [] \/ exists out, auth = [(login_request (self st), out)]).
Proof.
  rewrite ensure_authenticated_run.
  destruct (session_valid_at _ _).
  - exists []. split; [symmetry; apply app_nil_r | left; reflexivity].
  - destruct (login_exchanged st) as [out Hout].
    exists [(login_request (self st), out)]. split; [exact Hout|].
    right. exists out. reflexivity.
Qed.

Lemma request_calls_proxied p query cookie sent res :
  request_calls p query cookie sent res ->
  (length (filter is_proxy_call sent) <= 2)%nat.
Proof.
  intros H; inversion H; subst; cbn [filter];
    rewrite ?proxy_is_proxy, ?login_is_not_proxy; cbn [filter length]; lia.
Qed.

Lemma request_after_auth (p : string) (query : json) (st st1 : Obj W) :
  ensure_authenticated st = (inr tt, st1) ->
  let '(res, st') := request (JString p) query st in
  exists sent,
    exchanged st' = (exchanged st1 ++ sent)%list /\
    request_calls p query (sid_cookie (self st1)) sent res.
Proof.
  intros Hauth. unfold request. unfold bind at 1. rewrite Hauth.
  unfold bind at 1, lift at 1, py_quote.
  unfold bind at 1, gets at 1.
  unfold try_except, bind at 1, client_post at 1.
  fold (proxy_request p query (sid_cookie (self st1))).
  destruct (post (proxy_request p query (sid_cookie (self st1))) (world st1))
    as [[msg | r] w2] eqn:Hpost1.
  - exists [(proxy_request p query (sid_cookie (self st1)), inl msg)].
    split; [reflexivity|].
    apply calls_once.
    intros r H; discriminate.
  - cbn beta iota.
    set (st2 := mkObj (self st1) w2 _).
    destruct (Z.eqb_spec (status_code r) 401) as [H401|H401].
    + unfold bind at 1. unfold bind at 1. rewrite (login_run st2).
      cbn zeta. cbn [self world exchanged st2].
      destruct (post (login_request (self st1)) w2) as [[lmsg | lr] w3] eqn:Hpost2.
      * unfold raise. eexists.
        split; [cbn [exchanged]; rewrite <- app_assoc; reflexivity|].
        eapply calls_relogin_failed; [exact H401 |].
        intros lr H; discriminate.
      * destruct (login_accepted lr) eqn:Hacc.
        -- unfold bind at 1, gets at 1, client_post at 1.
           cbn [self world exchanged sid_cookie format_sid].
           change (dict_set "Cookie" _ (proxy_headers _))
             with (proxy_headers (Some (extract_sid (set_cookie_of lr)))).
           fold (proxy_request p query (Some (extract_sid (set_cookie_of lr)))).
           destruct (post (proxy_request p query (Some (extract_sid (set_cookie_of lr)))) w3)
             as [out3 w4] eqn:Hpost3.
           settle_outcome out3;
             (eapply calls_retried; [exact H401 | exact Hacc]).
        -- unfold raise. eexists.
           split; [cbn [exchanged]; rewrite <- app_assoc; reflexivity|].
           eapply calls_relogin_failed; [exact H401 |].
           intros lr' H; inversion H; subst; exact Hacc.
    + unfold bind at 1, ret at 1.
      settle_response r;
        (eapply calls_once; intros r' H; inversion H; subst; exact H401).
Qed.

(** With a path that is not a [str], [request] raises [TypeError] once it has
    authenticated, before anything is sent to the proxy. *)
Lemma request_bad_path (path query : json) (st st1 : Obj W) :
  ensure_authenticated st = (inr tt, st1) ->
  (forall p, path <> JString p) ->
  request path query st = (inl TypeError, st1).
Proof.
  intros Hauth Hpath. unfold request. unfold bind at 1. rewrite Hauth.
  destruct path; try reflexivity.
  exfalso. eapply Hpath. reflexivity.
Qed.

(** C1: a call of [request] makes at most one login call to authenticate
    ([auth]) and then the calls [sent].  Either it raised before sending
    anything (authentication failed, or the path is not a [str]), or the
    calls are as [request_calls] lists them for the token held after
    authentication: one proxied call whose answer is not a 401, or, after a
    401, exactly one login call and, if that login is accepted, exactly one
    more proxied call carrying the new token.  The answer to that second
    proxied call decides the result: any status other than 200, a second 401
    included, raises the request error carrying the status and the body, and
    nothing more is sent.  In all, a call issues at most two proxied
    requests. *)
Theorem request_retries_at_most_once (path query : json) (st : Obj W) :
  let '(res, st') := request path query st in
  exists auth sent : list Exchange,
    exchanged st' = (exchanged st ++ auth ++ sent)%list /\
    (auth = [] \/ exists out, auth = [(login_request (self st), out)]) /\
    (length (filter is_proxy_call (auth ++ sent)) <= 2)%nat /\
    ((sent = [] /\ exists e, res = inl e) \/
     (exists p st1,
        path = JString p /\
        ensure_authenticated st = (inr tt, st1) /\
        request_calls p query (sid_cookie (self st1)) sent res)).
Proof.
  destruct (ensure_authenticated_exchanged st) as [auth [Hlog Hauth]].
  assert (Hnone : filter is_proxy_call auth = []).
  { destruct Hauth as [-> | [out ->]]; [reflexivity|].
    cbn [filter]. rewrite login_is_not_proxy. reflexivity. }
  destruct (ensure_authenticated st) as [[e | []] st1] eqn:Hrun; cbn [snd] in Hlog.
  - unfold request, bind. rewrite Hrun.
    exists auth, []. rewrite app_nil_r.
    split; [exact Hlog|]. split; [exact Hauth|].
    split; [rewrite Hnone; cbn; lia |].
    left. split; [reflexivity | exists e; reflexivity].
  - assert (Hcase : (exists p, path = JString p) \/ (forall p, path <> JString p)).
    { destruct path; try (right; intros p H; discriminate).
      left. eexists. reflexivity. }
    destruct Hcase as [[p ->] | Hbad].
    + pose proof (@request_after_auth p query st st1 Hrun) as Htail.
      destruct (request (JString p) query st) as [res st'].
      destruct Htail as [sent [Hsent Hcalls]].
      exists auth, sent.
      split; [rewrite Hsent, Hlog, app_assoc; reflexivity|].
      split; [exact Hauth|].
      split.
      * rewrite filter_app, Hnone. cbn [app].
        eapply request_calls_proxied; exact Hcalls.
      * right. exists p, st1. repeat split. exact Hcalls.
    + rewrite (@request_bad_path path query st st1 Hrun Hbad).
      exists auth, []. rewrite app_nil_r.
      split; [exact Hlog|]. split; [exact Hauth|].
      split; [rewrite Hnone; cbn; lia |].
      left. split; [reflexivity | exists TypeError; reflexivity].
Qed.

(** A request on a session that holds no token starts with a login call made
    with the credentials of that session; the first proxied call, if any,
    carries the token of that login. *)
Lemma request_fresh_session (path query : json) (st : Obj W) :
  sid_cookie (self st) = None ->
  let '(res, st') := request path query st in
  exists out rest,
    exchanged st' = (exchanged st ++ (login_request (self st), out) :: rest)%list /\
    ((exists lr, out = inr lr /\ login_accepted lr = true /\
        forall p, path = JString p ->
          exists out2 rest',
            rest = (proxy_request p query (Some (extract_sid (set_cookie_of lr))), out2)
                     :: rest') \/
     ((forall lr, out = inr lr -> login_accepted lr = false) /\
      rest = [] /\ res = inl (login_error out))).
Proof.
  intros Hnone.
  assert (Hauth : ensure_authenticated st = login st).
  { rewrite ensure_authenticated_run. unfold session_valid_at.
    rewrite Hnone. reflexivity. }
  rewrite login_run in Hauth. cbn zeta in Hauth.
  destruct (post (login_request (self st)) (world st)) as [[msg | lr] w1] eqn:Hpost.
  - unfold request, bind. rewrite Hauth.
    exists (inl msg), []. split; [reflexivity|].
    right. split; [intros lr H; discriminate | split; reflexivity].
  - destruct (login_accepted lr) eqn:Hacc.
    + assert (Hcase : (exists p, path = JString p) \/ (forall p, path <> JString p)).
      { destruct path; try (right; intros p H; discriminate).
        left. eexists. reflexivity. }
      destruct Hcase as [[p ->] | Hbad].
      * pose proof (@request_after_auth p query st _ Hauth) as Htail.
        destruct (request (JString p) query st) as [res st'].
        destruct Htail as [sent [Hsent Hcalls]].
        cbn [self exchanged sid_cookie] in Hsent, Hcalls.
        exists (inr lr), sent.
        split; [rewrite Hsent, <- app_assoc; reflexivity|].
        left. exists lr. split; [reflexivity|]. split; [exact Hacc|].
        intros p' Hp. inversion Hp; subst p'.
        inversion Hcalls; subst; eexists; eexists; reflexivity.
      * rewrite (@request_bad_path path query st _ Hauth Hbad).
        exists (inr lr), []. split; [reflexivity|].
        left. exists lr. split; [reflexivity|]. split; [exact Hacc|].
        intros p Hp. exfalso. exact (Hbad p Hp).
    + unfold request, bind. rewrite Hauth.
      exists (inr lr), []. split; [reflexivity|].
      right. split; [|split; reflexivity].
      intros lr' H. inversion H; subst. exact Hacc.
Qed.

Lemma set_credentials_run (u p : json) (m : Module W) :
  exists closing',
    set_credentials u p m =
      (inr tt, mkModule (Some (KibanaSession_init u p)) closing'
                 (m_world m) (m_exchanged m)) /\
    (forall old, _session m = Some old -> In old closing').
Proof.
  unfold set_credentials, modify. eexists. split; [reflexivity|].
  intros old H. rewrite H. apply in_or_app. right. left. reflexivity.
Qed.

Lemma get_session_run (m : Module W) :
  get_session m =
    match _session m with
    | None => (inl not_configured, m)
    | Some s => (inr s, m)
    end.
Proof.
  unfold get_session, bind, gets. destruct (_session m); reflexivity.
Qed.

(** C5: after [set_credentials(u2, p2)] on a module whose session was
    established under [(u1, p1)] and holds a token, the old session is handed
    to [close] and replaced; the next request through the global session
    starts with a login call whose parameters are [(u2, p2)], and the proxied
    call that follows carries the token of that login, not the old one. *)
Theorem credential_swap_forces_fresh_login
    (u1 p1 u2 p2 : json) (tok : string) (t : Z) (m : Module W)
    (p : string) (query : json) :
  _session m = Some (mkKibanaSession u1 p1 (Some tok) (Some t)) ->
  let m1 := snd (set_credentials u2 p2 m) in
  let fresh := KibanaSession_init u2 p2 in
  In (mkKibanaSession u1 p1 (Some tok) (Some t)) (closing m1) /\
  get_session m1 = (inr fresh, m1) /\
  login_params (login_request fresh)
    = Some (JObject [("username", u2); ("password", p2)]) /\
  let '(res, m2) := on_session fresh (request (JString p) query) m1 in
  exists out rest,
    m_exchanged m2 = (m_exchanged m ++ (login_request fresh, out) :: rest)%list /\
    ((exists lr out2 rest',
        out = inr lr /\ login_accepted lr = true /\
        rest = (proxy_request p query (Some (extract_sid (set_cookie_of lr))), out2)
                 :: rest') \/
     (rest = [] /\ res = inl (login_error out))).
Proof.
  intros Hold. cbn zeta.
  destruct (set_credentials_run u2 p2 m) as [closing' [Hset Hin]].
  rewrite Hset. cbn [snd closing].
  split; [apply Hin; exact Hold|].
  split; [rewrite get_session_run; reflexivity|].
  split; [reflexivity|].
  unfold on_session. cbn [m_world m_exchanged].
  pose proof (@request_fresh_session (JString p) query
                (mkObj (KibanaSession_init u2 p2) (m_world m) (m_exchanged m))
                eq_refl) as Hreq.
  destruct (request (JString p) query _) as [res o].
  destruct Hreq as [out [rest [Hlog Hcases]]].
  cbn [self exchanged] in Hlog. cbn [m_exchanged].
  exists out, rest. split; [exact Hlog|].
  destruct Hcases as [[lr [Hout [Hacc Hnext]]] | [_ [Hrest Hres]]].
  - left. destruct (Hnext p eq_refl) as [out2 [rest' Hr]].
    exists lr, out2, rest'. repeat split; assumption.
  - right. split; assumption.
Qed.

(** C10: [set_credentials] always replaces the global session by a new one
    that holds no token and no creation time, whatever the stored
    credentials were (the same ones included) and without any network call;
    the next request through the global session therefore starts with a
    login call, at any clock reading. *)
Theorem set_credentials_always_discards
    (u p : json) (m : Module W) (path query : json) :
  let '(r1, m1) := set_credentials u p m in
  r1 = inr tt /\
  _session m1 = Some (KibanaSession_init u p) /\
  sid_cookie (KibanaSession_init u p) = None /\
  session_created_at (KibanaSession_init u p) = None /\
  m_exchanged m1 = m_exchanged m /\
  get_session m1 = (inr (KibanaSession_init u p), m1) /\
  let '(res, m2) := on_session (KibanaSession_init u p) (request path query) m1 in
  exists out rest,
    m_exchanged m2
      = (m_exchanged m1 ++ (login_request (KibanaSession_init u p), out) :: rest)%list.
Proof.
  destruct (set_credentials_run u p m) as [closing' [Hset _]].
  rewrite Hset.
  do 5 (split; [reflexivity|]).
  split; [rewrite get_session_run; reflexivity|].
  unfold on_session. cbn [m_world m_exchanged].
  pose proof (@request_fresh_session path query
                (mkObj (KibanaSession_init u p) (m_world m) (m_exchanged m))
                eq_refl) as Hreq.
  destruct (request path query _) as [res o].
  destruct Hreq as [out [rest [Hlog _]]].
  exists out, rest. exact Hlog.
Qed.

(** C6: while no credential is set, [get_session] raises the
    not-initialised error, and so does every tool call other than
    [kibana_set_credentials], at once: the module state, the world and the
    log of calls are what they were, so nothing was sent.  [get_session]
    raises in no other state, and [set_credentials] never raises. *)
Theorem not_configured_fails_without_network
    (name : string) (arguments : dict json) (m : Module W) :
  _session m = None ->
  name <> "kibana_set_credentials" ->
  get_session m = (inl not_configured, m) /\
  call_tool name arguments m = (inl not_configured, m) /\
  (forall m' e, fst (get_session m') = inl e ->
     _session m' = None /\ e = not_configured) /\
  (forall u p m', fst (set_credentials u p m') = inr tt).
Proof.
  intros Hnone Hname.
  assert (Hget : get_session m = (inl not_configured, m)).
  { rewrite get_session_run, Hnone. reflexivity. }
  split; [exact Hget|]. split; [|split].
  - unfold call_tool.
    destruct (String.eqb_spec name "kibana_set_credentials") as [E|_];
      [contradiction|].
    unfold bind at 1. rewrite Hget. reflexivity.
  - intros m' e H. rewrite get_session_run in H.
    destruct (_session m'); cbn in H; [discriminate|].
    inversion H. split; reflexivity.
  - intros u p m'. reflexivity.
Qed.

(** C7, as the code has it: the module has no boolean configuration check;
    whether credentials are set is observed through [get_session], which
    raises the not-initialised error on the module as imported and returns
    the session right after any [set_credentials] call.  Neither
    [get_session] nor [set_credentials] sends anything or changes the
    world. *)
Theorem get_session_reflects_configuration (w : W) (u p : json) (m : Module W) :
  get_session (initial_module w) = (inl not_configured, initial_module w) /\
  (let m1 := snd (set_credentials u p m) in
   get_session m1 = (inr (KibanaSession_init u p), m1) /\
   m_exchanged m1 = m_exchanged m /\
   m_world m1 = m_world m).
Proof.
  split; [reflexivity|]. cbn zeta.
  destruct (set_credentials_run u p m) as [closing' [Hset _]].
  rewrite Hset. cbn [snd].
  split; [rewrite get_session_run; reflexivity|].
  split; reflexivity.
Qed.

(** *** Dictionaries *)

Lemma dict_get_set_same {V} (k : string) (v : V) (d : dict V) :
  dict_get k (dict_set k v d) = Some v.
Proof.
  induction d as [|[k' v'] d IH]; cbn [dict_set dict_get].
  - rewrite String.eqb_refl. reflexivity.
  - destruct (String.eqb k k') eqn:E; cbn [dict_get]; rewrite E;
      [reflexivity | exact IH].
Qed.

Lemma dict_get_set_other {V} (k k' : string) (v : V) (d : dict V) :
  String.eqb k k' = false ->
  dict_get k (dict_set k' v d) = dict_get k d.
Proof.
  intros Hne. induction d as [|[k0 v0] d IH]; cbn [dict_set dict_get].
  - rewrite Hne. reflexivity.
  - destruct (String.eqb_spec k' k0) as [<-|E]; cbn [dict_get].
    + rewrite Hne. reflexivity.
    + rewrite IH. reflexivity.
Qed.

Lemma dict_get_remove_other {V} (k k' : string) (d : dict V) :
  String.eqb k k' = false ->
  dict_get k (dict_remove k' d) = dict_get k d.
Proof.
  intros Hne. induction d as [|[k0 v0] d IH]; cbn [dict_remove dict_get];
    [reflexivity|].
  destruct (String.eqb_spec k' k0) as [<-|Hk].
  - rewrite Hne. exact IH.
  - cbn [dict_get]. rewrite IH. reflexivity.
Qed.

Lemma dict_get_remove_same {V} (k : string) (d : dict V) :
  dict_get k (dict_remove k d) = None.
Proof.
  induction d as [|[k0 v0] d IH]; cbn [dict_remove]; [reflexivity|].
  destruct (String.eqb k k0) eqn:E; [exact IH|].
  cbn [dict_get]. rewrite E. exact IH.
Qed.

Lemma dict_get_set_keeps {V} (k k' : string) (v v' : V) (d : dict V) :
  dict_contains k' d = false ->
  dict_get k d = Some v ->
  dict_get k (dict_set k' v' d) = Some v.
Proof.
  intros Hnot Hget. rewrite dict_get_set_other; [exact Hget|].
  destruct (String.eqb_spec k k') as [->|]; [|reflexivity].
  unfold dict_contains in Hnot. rewrite Hget in Hnot. discriminate.
Qed.

(** Lines 420-424 on a dictionary. *)
Lemma ensure_size_source_object (dsl : dict json) (size fields : json) :
  ensure_size_source (JObject dsl) size fields =
    inr (JObject
      (let d1 := if dict_contains "size" dsl then dsl
                 else dict_set "size" size dsl in
       if dict_contains "_source" d1 then d1
       else dict_set "_source" fields d1)).
Proof.
  unfold ensure_size_source. cbn [py_in].
  destruct (dict_contains "size" dsl); cbn [py_setitem py_in];
    match goal with
    | |- context [dict_contains "_source" ?d] =>
        destruct (dict_contains "_source" d)
    end; reflexivity.
Qed.

(** C9: when the [query] argument of the log search is a text that decodes
    to a JSON object, the body handed to [request] is that object with
    ["size"] and ["_source"] present: a value the object already had is kept,
    a missing one is taken from the [size] and [fields] arguments (20 and the
    three default fields when those are not given); every other key is as
    decoded. *)
Theorem search_logs_fills_size_and_source
    (args : dict json) (q : string) (dsl : dict json) (st : Obj W) :
  dict_get "query" args = Some (JString q) ->
  json_loads q = inr (JObject dsl) ->
  let size := dict_get_default "size" (JInt 20) args in
  let fields := dict_get_default "fields" default_fields args in
  let index_pattern := dict_get_default "index_pattern" (JString "logstash-*") args in
  exists body : dict json,
    handle_search_logs args st
      = request (search_path index_pattern) (JObject body) st /\
    dict_get "size" body = Some (dict_get_default "size" size dsl) /\
    dict_get "_source" body = Some (dict_get_default "_source" fields dsl) /\
    (forall k v, dict_get k dsl = Some v -> dict_get k body = Some v) /\
    (forall k, String.eqb k "size" = false -> String.eqb k "_source" = false ->
       dict_get k body = dict_get k dsl).
Proof.
  intros Hq Hloads. cbn zeta.
  set (size := dict_get_default "size" (JInt 20) args).
  set (fields := dict_get_default "fields" default_fields args).
  set (d1 := if dict_contains "size" dsl then dsl else dict_set "size" size dsl).
  exists (if dict_contains "_source" d1 then d1 else dict_set "_source" fields d1).
  split.
  - unfold handle_search_logs, subscript. rewrite Hq.
    unfold bind at 1, lift at 1.
    unfold py_json_loads. rewrite Hloads.
    unfold bind at 1, lift at 1.
    fold size fields. rewrite ensure_size_source_object.
    reflexivity.
  - assert (Hsize1 : dict_get "size" d1 = Some (dict_get_default "size" size dsl)).
    { unfold d1, dict_contains, dict_get_default.
      destruct (dict_get "size" dsl) eqn:E; [exact E | apply dict_get_set_same]. }
    assert (Hkeep1 : forall k v, dict_get k dsl = Some v -> dict_get k d1 = Some v).
    { intros k v H. unfold d1.
      destruct (dict_contains "size" dsl) eqn:E; [exact H|].
      apply dict_get_set_keeps; assumption. }
    assert (Hother1 : forall k, String.eqb k "size" = false ->
                                dict_get k d1 = dict_get k dsl).
    { intros k H. unfold d1.
      destruct (dict_contains "size" dsl); [reflexivity|].
      apply dict_get_set_other; exact H. }
    destruct (dict_contains "_source" d1) eqn:Hsrc.
    + split; [exact Hsize1|]. split; [|split].
      * unfold dict_contains in Hsrc. unfold dict_get_default.
        rewrite <- (Hother1 "_source" eq_refl).
        destruct (dict_get "_source" d1); [reflexivity | discriminate].
      * exact Hkeep1.
      * intros k H1 _. apply Hother1; exact H1.
    + split; [|split; [|split]].
      * rewrite dict_get_set_other; [exact Hsize1 | reflexivity].
      * rewrite dict_get_set_same. unfold dict_contains in Hsrc.
        unfold dict_get_default.
        rewrite <- (Hother1 "_source" eq_refl).
        destruct (dict_get "_source" d1); [discriminate | reflexivity].
      * intros k v H. apply dict_get_set_keeps; [exact Hsrc|].
        apply Hkeep1; exact H.
      * intros k H1 H2. rewrite dict_get_set_other; [|exact H2].
        apply Hother1; exact H1.
Qed.

Lemma aggregate_query_dsl_without_filter (args : dict json) (agg_type base : json) :
  aggregate_query_dsl (dict_remove "filter" args) agg_type base
    = aggregate_query_dsl args agg_type base.
Proof.
  unfold aggregate_query_dsl.
  rewrite (dict_get_remove_other "custom_aggregation" "filter" args eq_refl).
  reflexivity.
Qed.

(** C8: when the [filter] argument of the aggregation is a text that
    [json.loads] rejects, the base query is the plain time-range query and
    the whole call behaves as the same call made without [filter]: the same
    query goes to [request], with the same result, and no error comes from
    the filter. *)
Theorem aggregate_ignores_malformed_filter
    (args : dict json) (f msg : string) (st : Obj W) :
  dict_get "filter" args = Some (JString f) ->
  json_loads f = inl msg ->
  aggregate_base_query args
    = inr (range_query (dict_get_default "time_range" (JString "now-1h") args)) /\
  handle_aggregate_logs args st
    = handle_aggregate_logs (dict_remove "filter" args) st.
Proof.
  intros Hfilter Hloads.
  assert (Hbase : aggregate_base_query args
            = inr (range_query (dict_get_default "time_range" (JString "now-1h") args))).
  { unfold aggregate_base_query. rewrite Hfilter.
    destruct (truthy (JString f)); [|reflexivity].
    unfold py_json_loads. rewrite Hloads. reflexivity. }
  split; [exact Hbase|].
  assert (Hbase' : aggregate_base_query (dict_remove "filter" args)
                   = aggregate_base_query args).
  { rewrite Hbase. unfold aggregate_base_query.
    rewrite dict_get_remove_same. unfold dict_get_default.
    rewrite (dict_get_remove_other "time_range" "filter" args eq_refl).
    reflexivity. }
  unfold handle_aggregate_logs, subscript, dict_get_default.
  rewrite (dict_get_remove_other "aggregation_type" "filter" args eq_refl).
  rewrite (dict_get_remove_other "index_pattern" "filter" args eq_refl).
  rewrite Hbase'.
  destruct (dict_get "aggregation_type" args) as [agg_type|]; [|reflexivity].
  unfold bind, lift.
  destruct (aggregate_base_query args) as [e|base]; [reflexivity|].
  rewrite aggregate_query_dsl_without_filter. reflexivity.
Qed.

(** ** The session across calls *)

Section Preservation.

(** A property of the stored session that survives the two assignments of
    [login] survives every method. *)
Variable P : KibanaSession -> Prop.
Hypothesis P_login :
  forall s tok t,
    P s -> P (mkKibanaSession (username s) (password s) (Some tok) (Some t)).

Lemma login_preserves (st : Obj W) :
  P (self st) -> P (self (snd (login st))).
Proof.
  intros HP. rewrite login_run. cbn zeta.
  destruct (post _ (world st)) as [[msg | r] w']; [exact HP|].
  destruct (login_accepted r); cbn [snd self]; [apply P_login|]; exact HP.
Qed.

Lemma ensure_authenticated_preserves (st : Obj W) :
  P (self st) -> P (self (snd (ensure_authenticated st))).
Proof.
  intros HP. rewrite ensure_authenticated_run.
  destruct (session_valid_at _ _); [exact HP | apply login_preserves; exact HP].
Qed.

Lemma request_preserves (path query : json) (st : Obj W) :
  P (self st) -> P (self (snd (request path query st))).
Proof.
  intros HP.
  pose proof (ensure_authenticated_preserves st HP) as H1.
  unfold request. unfold bind at 1.
  destruct (ensure_authenticated st) as [[e | []] st1]; cbn [snd] in H1;
    [exact H1|].
  destruct path as [| | | | p | |]; try exact H1.
  unfold bind at 1, lift at 1, py_quote.
  unfold bind at 1, gets at 1.
  unfold try_except, bind at 1, client_post at 1.
  destruct (post _ (world st1)) as [[msg | r] w2]; [exact H1|].
  cbn beta iota.
  set (st2 := mkObj (self st1) w2 _).
  destruct (status_code r =? 401).
  - unfold bind at 1. unfold bind at 1.
    pose proof (login_preserves st2 H1) as H2.
    destruct (login st2) as [[e | []] st3]; cbn [snd] in H2; [exact H2|].
    unfold bind at 1, gets at 1, client_post at 1.
    destruct (post _ (world st3)) as [[msg | r3] w4]; [exact H2|].
    cbn beta iota.
    destruct (status_code r3 =? 200); [|exact H2].
    unfold lift. destruct (response_json r3); exact H2.
  - unfold bind at 1, ret at 1.
    destruct (status_code r =? 200); [|exact H1].
    unfold lift. destruct (response_json r); exact H1.
Qed.

End Preservation.

(** X1: no method of the session changes the credentials it was built
    with. *)
Theorem methods_keep_credentials (path query : json) (st : Obj W) :
  (username (self (snd (login st))) = username (self st) /\
   password (self (snd (login st))) = password (self st)) /\
  (username (self (snd (ensure_authenticated st))) = username (self st) /\
   password (self (snd (ensure_authenticated st))) = password (self st)) /\
  (username (self (snd (request path query st))) = username (self st) /\
   password (self (snd (request path query st))) = password (self st)).
Proof.
  set (P := fun s => username s = username (self st)
                     /\ password s = password (self st)).
  assert (HP : forall s tok t,
             P s -> P (mkKibanaSession (username s) (password s) (Some tok) (Some t))).
  { intros s tok t H. exact H. }
  assert (H0 : P (self st)) by (split; reflexivity).
  split; [exact (login_preserves P HP st H0)|].
  split; [exact (ensure_authenticated_preserves P HP st H0)|].
  exact (request_preserves P HP path query st H0).
Qed.



Lemma request_outcome_value (out : string + Response) (v : json) :
  request_outcome out = inr v ->
  exists r, out = inr r /\ status_code r = 200 /\ json_loads (text r) = inr v.
Proof.
  destruct out as [msg | r]; cbn [request_outcome]; [discriminate|].
  destruct (Z.eqb_spec (status_code r) 200) as [H200|]; [|discriminate].
  destruct (json_loads (text r)) eqn:Hj; [discriminate|].
  intros H; inversion H; subst. exists r. repeat split; assumption.
Qed.



(** X3: a value is returned only from a 200: when [request] returns [v],
    the last call it made is a proxied call for that path and query, answered
    with status 200 and a body that decodes to [v]. *)
Theorem request_value_comes_from_200 (path query v : json) (st : Obj W) :
  fst (request path query st) = inr v ->
  exists p cookie r before,
    path = JString p /\
    exchanged (snd (request path query st))
      = (before ++ [(proxy_request p query cookie, inr r)])%list /\
    status_code r = 200 /\
    json_loads (text r) = inr v.
Proof.
  intros Hv.
  destruct (ensure_authenticated st) as [[e1 | []] st1] eqn:Hauth.
  - unfold request, bind in Hv. rewrite Hauth in Hv. discriminate.
  - assert (Hcase : (exists p, path = JString p) \/ (forall p, path <> JString p)).
    { destruct path; try (right; intros p H; discriminate).
      left. eexists. reflexivity. }
    destruct Hcase as [[p ->] | Hbad].
    + pose proof (@request_after_auth p query st st1 Hauth) as Htail.
      destruct (request (JString p) query st) as [res st'].
      destruct Htail as [sent [Hsent Hcalls]]. cbn [fst snd] in *. subst res.
      inversion Hcalls; subst.
      * match goal with H : request_outcome _ = _ |- _ =>
          apply request_outcome_value in H;
          destruct H as [r [-> [H200 Hj]]] end.
        exists p, (sid_cookie (self st1)), r, (exchanged st1).
        repeat split; assumption.
      * match goal with H : request_outcome _ = _ |- _ =>
          apply request_outcome_value in H;
          destruct H as [r2 [-> [H200 Hj]]] end.
        eexists p, _, r2, (exchanged st1 ++ [_; _])%list.
        split; [reflexivity|]. split; [|split; assumption].
        rewrite Hsent, <- app_assoc. reflexivity.
    + rewrite (@request_bad_path path query st st1 Hauth Hbad) in Hv.
      discriminate.
Qed.

(** X4: with a valid session and a first answer that is not a 401, [request]
    makes that one proxied call and nothing else: the stored token and its
    creation time are what they were, so using a session does not extend its
    23 hours. *)
Theorem request_fast_path
    (p : string) (query : json) (st : Obj W) (out : string + Response) (w' : W) :
  session_valid_at (self st) (datetime_now (world st)) = true ->
  post (proxy_request p query (sid_cookie (self st))) (world st) = (out, w') ->
  (forall r, out = inr r -> status_code r <> 401) ->
  request (JString p) query st
    = (request_outcome out,
       mkObj (self st) w'
         (exchanged st ++ [(proxy_request p query (sid_cookie (self st)), out)])%list).
Proof.
  intros Hvalid Hpost Hnot.
  unfold request. unfold bind at 1.
  rewrite ensure_authenticated_run, Hvalid.
  unfold bind at 1, lift at 1, py_quote.
  unfold bind at 1, gets at 1.
  unfold try_except, bind at 1, client_post at 1.
  fold (proxy_request p query (sid_cookie (self st))).
  rewrite Hpost.
  destruct out as [msg | r]; [reflexivity|].
  cbn beta iota.
  destruct (Z.eqb_spec (status_code r) 401) as [H401|_];
    [exfalso; exact (Hnot r eq_refl H401)|].
  unfold bind at 1, ret at 1. unfold request_outcome.
  destruct (status_code r =? 200); [|reflexivity].
  unfold lift, response_json. destruct (json_loads (text r)); reflexivity.
Qed.

Lemma login_accepted_run (st : Obj W) (r : Response) (w' : W) :
  post (login_request (self st)) (world st) = (inr r, w') ->
  login_accepted r = true ->
  login st =
    (inr tt,
     mkObj (mkKibanaSession (username (self st)) (password (self st))
              (Some (extract_sid (set_cookie_of r))) (Some (datetime_now w')))
           w' (exchanged st ++ [(login_request (self st), inr r)])%list).
Proof.
  intros Hpost Hacc. rewrite login_run. cbn zeta. rewrite Hpost, Hacc.
  reflexivity.
Qed.

(** X5: an accepted login with a non-empty token opens the window: from
    then on [ensure_authenticated] returns at once, touching nothing, at
    every clock reading up to 23 hours after the login, that bound included,
    and logs in again at every later one. *)
Theorem accepted_login_opens_window (st st2 : Obj W) (r : Response) (w' : W) :
  post (login_request (self st)) (world st) = (inr r, w') ->
  login_accepted r = true ->
  extract_sid (set_cookie_of r) <> "" ->
  self st2 = self (snd (login st)) ->
  (datetime_now (world st2) - datetime_now w' <= SESSION_TIMEOUT ->
     ensure_authenticated st2 = (inr tt, st2)) /\
  (datetime_now (world st2) - datetime_now w' > SESSION_TIMEOUT ->
     ensure_authenticated st2 = login st2).
Proof.
  intros Hpost Hacc Htok Hself.
  rewrite (login_accepted_run st Hpost Hacc) in Hself. cbn [snd self] in Hself.
  rewrite ensure_authenticated_run. unfold session_valid_at.
  rewrite Hself. cbn [sid_cookie session_created_at sid_missing].
  destruct (String.eqb_spec (extract_sid (set_cookie_of r)) "") as [E|_];
    [contradiction|].
  destruct (Z.gtb_spec (datetime_now (world st2) - datetime_now w') SESSION_TIMEOUT)
    as [Hgt|Hle]; cbn [negb]; split; intros H; try reflexivity; lia.
Qed.

(** X6: a login whose cookie header gives an empty token (nothing between
    [sid=] and the [;]) is accepted like any other, but the stored session
    then counts as absent: whatever the clock reads, the next
    [ensure_authenticated] logs in again. *)
Theorem empty_token_is_never_valid (st st2 : Obj W) (r : Response) (w' : W) :
  post (login_request (self st)) (world st) = (inr r, w') ->
  login_accepted r = true ->
  extract_sid (set_cookie_of r) = "" ->
  self st2 = self (snd (login st)) ->
  fst (login st) = inr tt /\
  sid_cookie (self st2) = Some "" /\
  ensure_authenticated st2 = login st2.
Proof.
  intros Hpost Hacc Htok Hself.
  rewrite (login_accepted_run st Hpost Hacc) in *. cbn [fst snd self] in *.
  split; [reflexivity|].
  rewrite ensure_authenticated_run. unfold session_valid_at.
  rewrite Hself, Htok. split; reflexivity.
Qed.

(** ** The global session across tool calls *)

Section HandlerPreservation.

Variable P : KibanaSession -> Prop.
Hypothesis P_login :
  forall s tok t,
    P s -> P (mkKibanaSession (username s) (password s) (Some tok) (Some t)).

(** Every handler either raises while it builds its query, with the object
    untouched, or ends in one call of [request]. *)
Ltac through_handler :=
  repeat match goal with
         | |- P (self (snd (bind (lift ?r) _ ?st))) =>
             unfold bind at 1, lift at 1; destruct r; [assumption|]
         end;
  try (apply request_preserves; assumption).

Lemma handle_search_logs_preserves (args : dict json) (st : Obj W) :
  P (self st) -> P (self (snd (handle_search_logs args st))).
Proof. intros HP. unfold handle_search_logs. through_handler. Qed.

Lemma handle_aggregate_logs_preserves (args : dict json) (st : Obj W) :
  P (self st) -> P (self (snd (handle_aggregate_logs args st))).
Proof. intros HP. unfold handle_aggregate_logs. through_handler. Qed.

Lemma handle_get_latest_logs_preserves (args : dict json) (st : Obj W) :
  P (self st) -> P (self (snd (handle_get_latest_logs args st))).
Proof. intros HP. unfold handle_get_latest_logs. through_handler. Qed.

Lemma handle_search_errors_preserves (args : dict json) (st : Obj W) :
  P (self st) -> P (self (snd (handle_search_errors args st))).
Proof. intros HP. unfold handle_search_errors. through_handler. Qed.

Lemma handle_raw_query_preserves (args : dict json) (st : Obj W) :
  P (self st) -> P (self (snd (handle_raw_query args st))).
Proof. intros HP. unfold handle_raw_query. through_handler. Qed.

Lemma on_session_preserves (method : M (Obj W) json) (s : KibanaSession)
    (m : Module W) :
  (forall st, self st = s -> P (self (snd (method st)))) ->
  exists s',
    _session (snd (bind (on_session s method) (fun r => ret (Rendered r)) m))
      = Some s' /\ P s' /\
    closing (snd (bind (on_session s method) (fun r => ret (Rendered r)) m))
      = closing m.
Proof.
  intros Hm. unfold bind, on_session, ret.
  specialize (Hm (mkObj s (m_world m) (m_exchanged m)) eq_refl).
  destruct (method _) as [[e | a] o]; cbn [snd self _session closing] in *;
    eexists; repeat split; exact Hm.
Qed.

(** A tool other than [kibana_set_credentials], called with a session in
    place, leaves a session in place that still has the property, and hands
    nothing to [close]. *)
Lemma query_tool_preserves (name : string) (args : dict json) (m : Module W)
    (s : KibanaSession) :
  name <> "kibana_set_credentials" ->
  _session m = Some s ->
  P s ->
  exists s',
    _session (snd (call_tool name args m)) = Some s' /\ P s' /\
    closing (snd (call_tool name args m)) = closing m.
Proof.
  intros Hname Hs HP.
  remember (call_tool name args m) as res eqn:Hres.
  unfold call_tool in Hres.
  destruct (String.eqb_spec name "kibana_set_credentials") as [E|_];
    [contradiction|].
  unfold bind at 1 in Hres. rewrite get_session_run, Hs in Hres.
  destruct (String.eqb name "kibana_search_logs").
  { rewrite Hres. apply on_session_preserves. intros st <-.
    apply handle_search_logs_preserves. exact HP. }
  destruct (String.eqb name "kibana_aggregate_logs").
  { rewrite Hres. apply on_session_preserves. intros st <-.
    apply handle_aggregate_logs_preserves. exact HP. }
  destruct (String.eqb name "kibana_get_latest_logs").
  { rewrite Hres. apply on_session_preserves. intros st <-.
    apply handle_get_latest_logs_preserves. exact HP. }
  destruct (String.eqb name "kibana_search_errors").
  { rewrite Hres. apply on_session_preserves. intros st <-.
    apply handle_search_errors_preserves. exact HP. }
  destruct (String.eqb name "kibana_raw_query").
  { rewrite Hres. apply on_session_preserves. intros st <-.
    apply handle_raw_query_preserves. exact HP. }
  rewrite Hres. exists s. cbn [snd raise]. repeat split; assumption.
Qed.

End HandlerPreservation.

Lemma session_paired_login (s : KibanaSession) (tok : string) (t : Z) :
  session_paired s ->
  session_paired (mkKibanaSession (username s) (password s) (Some tok) (Some t)).
Proof. intros _. split; discriminate. Qed.

Lemma set_credentials_tool_run (args : dict json) (m : Module W) :
  call_tool "kibana_set_credentials" args m =
    match dict_get "username" args, dict_get "password" args with
    | None, _ => (inl (KeyError "username"), m)
    | Some _, None => (inl (KeyError "password"), m)
    | Some u, Some p =>
        (inr (Text ("✅ Kibana 凭证已设置" ++ newline ++ "用户名: " ++ py_str u
                      ++ newline ++ "会话将在首次请求时自动建立")),
         snd (set_credentials u p m))
    end.
Proof.
  unfold call_tool. cbn [String.eqb Ascii.eqb Bool.eqb].
  unfold subscript, bind, lift.
  destruct (dict_get "username" args) as [u|]; [|reflexivity].
  destruct (dict_get "password" args) as [p|]; reflexivity.
Qed.

(** X7: the global session never holds a token without a creation time or
    a creation time without a token: if that is so before a tool call, it is
    so after it, whatever the tool, the arguments and the backend's
    answers. *)
Theorem tool_calls_keep_token_and_time_paired
    (name : string) (args : dict json) (m : Module W) (s' : KibanaSession) :
  (forall s, _session m = Some s -> session_paired s) ->
  _session (snd (call_tool name args m)) = Some s' ->
  session_paired s'.
Proof.
  intros Hm Hs'.
  destruct (String.eqb_spec name "kibana_set_credentials") as [->|Hname].
  - rewrite set_credentials_tool_run in Hs'.
    destruct (dict_get "username" args) as [u|]; [|apply Hm; exact Hs'].
    destruct (dict_get "password" args) as [p|]; [|apply Hm; exact Hs'].
    cbn in Hs'. inversion Hs'. split; reflexivity.
  - destruct (_session m) as [s|] eqn:Hs.
    + destruct (@query_tool_preserves session_paired session_paired_login
                  name args m s Hname Hs (Hm s eq_refl)) as [s2 [H2 [Hp _]]].
      rewrite H2 in Hs'. inversion Hs'; subst. exact Hp.
    + exfalso. unfold call_tool in Hs'.
      destruct (String.eqb_spec name "kibana_set_credentials") as [E|_];
        [contradiction|].
      unfold bind at 1 in Hs'. rewrite get_session_run, Hs in Hs'.
      cbn [snd] in Hs'. rewrite Hs in Hs'. discriminate.
Qed.

(** X8: only [kibana_set_credentials] replaces the global session: after
    any other tool call the session is still in place with the same username
    and password, and no session was handed to [close]. *)
Theorem query_tools_keep_session_and_credentials
    (name : string) (args : dict json) (m : Module W) (s : KibanaSession) :
  name <> "kibana_set_credentials" ->
  _session m = Some s ->
  exists s',
    _session (snd (call_tool name args m)) = Some s' /\
    username s' = username s /\
    password s' = password s /\
    closing (snd (call_tool name args m)) = closing m.
Proof.
  intros Hname Hs.
  set (P := fun s' => username s' = username s /\ password s' = password s).
  assert (HP : forall s0 tok t,
             P s0 -> P (mkKibanaSession (username s0) (password s0) (Some tok) (Some t))).
  { intros s0 tok t H. exact H. }
  destruct (@query_tool_preserves P HP name args m s Hname Hs (conj eq_refl eq_refl))
    as [s' [H1 [[Hu Hp] Hc]]].
  exists s'. repeat split; assumption.
Qed.

(** ** The advertised tools and the dispatcher *)

(** With a session in place, a tool other than [kibana_set_credentials] is
    looked up among the handlers. *)
Lemma call_tool_dispatch (n : string) (args : dict json) (m : Module W)
    (s : KibanaSession) :
  n <> "kibana_set_credentials" ->
  _session m = Some s ->
  call_tool n args m =
    match dict_get n handlers with
    | Some h => (r <- on_session s (h args) ;; ret (Rendered r)) m
    | None => (inl (ValueError ("未知工具: " ++ n)), m)
    end.
Proof.
  intros Hn Hs. unfold call_tool.
  destruct (String.eqb_spec n "kibana_set_credentials") as [E|_];
    [contradiction|].
  unfold bind at 1. rewrite get_session_run, Hs.
  unfold handlers. cbn [dict_get].
  repeat match goal with
         | |- context [String.eqb n ?lit] => destruct (String.eqb n lit)
         end; reflexivity.
Qed.

Lemma tool_names :
  map name list_tools =
    ["kibana_set_credentials"; "kibana_search_logs"; "kibana_aggregate_logs";
     "kibana_get_latest_logs"; "kibana_search_errors"; "kibana_raw_query"].
Proof. reflexivity. Qed.

Lemma handler_names (n : string) :
  In n (map name list_tools) <->
  n = "kibana_set_credentials" \/ dict_contains n handlers = true.
Proof.
  rewrite tool_names. unfold dict_contains, handlers. cbn [dict_get In].
  split.
  - intros [<- | [<- | [<- | [<- | [<- | [<- | []]]]]]];
      try (left; reflexivity); right; reflexivity.
  - intros [-> | H]; [left; reflexivity|]. right.
    repeat match type of H with
           | context [String.eqb n ?lit] =>
               destruct (String.eqb_spec n lit) as [E|_];
               [rewrite E; solve [repeat (first [left; reflexivity | right])]|]
           end.
    cbn in H. discriminate.
Qed.

(** X9: the tools [list_tools] advertises are exactly the ones [call_tool]
    serves: with a session in place, an advertised name other than
    [kibana_set_credentials] runs its handler on the global session, and any
    name that is not advertised raises the unknown-tool [ValueError] with
    nothing sent and nothing changed. *)
Theorem advertised_tools_are_served
    (n : string) (args : dict json) (m : Module W) (s : KibanaSession) :
  _session m = Some s ->
  (In n (map name list_tools) ->
     n = "kibana_set_credentials" \/
     exists h, dict_get n handlers = Some h /\
       call_tool n args m = (r <- on_session s (h args) ;; ret (Rendered r)) m) /\
  (~ In n (map name list_tools) ->
     call_tool n args m = (inl (ValueError ("未知工具: " ++ n)), m)).
Proof.
  intros Hs. split.
  - intros Hin. apply handler_names in Hin.
    destruct (String.eqb_spec n "kibana_set_credentials") as [E|Hn];
      [left; exact E|].
    destruct Hin as [E | Hc]; [contradiction|]. right.
    rewrite (@call_tool_dispatch n args m s Hn Hs).
    unfold dict_contains in Hc.
    destruct (dict_get n handlers) as [h|]; [|discriminate].
    exists h. split; reflexivity.
  - intros Hout.
    assert (Hn : n <> "kibana_set_credentials").
    { intros ->. apply Hout. rewrite tool_names. left. reflexivity. }
    rewrite (@call_tool_dispatch n args m s Hn Hs).
    destruct (dict_get n handlers) as [h|] eqn:Hh; [|reflexivity].
    exfalso. apply Hout. apply handler_names. right.
    unfold dict_contains. rewrite Hh. reflexivity.
Qed.

(** *** Which exceptions the query builders raise *)


Lemma py_json_loads_error (x : json) (e : exn) :
  py_json_loads x = inl e -> e = TypeError \/ exists msg, e = JSONDecodeError msg.
Proof.
  destruct x; cbn [py_json_loads]; try (intros H; inversion H; left; reflexivity).
  destruct (json_loads s); [|discriminate].
  intros H; inversion H. right. eexists. reflexivity.
Qed.





(** *** Missing arguments *)








(** *** Advertised defaults *)

Lemma dict_get_app_one {V} (k' k : string) (d : V) (args : dict V) :
  dict_get k' (args ++ [(k, d)])%list =
    match dict_get k' args with
    | Some v => Some v
    | None => if String.eqb k' k then Some d else None
    end.
Proof.
  induction args as [|[k0 v0] args IH]; cbn [app dict_get]; [reflexivity|].
  destruct (String.eqb k' k0); [reflexivity | exact IH].
Qed.

(** Once the lookups in the extended dictionary are written in terms of the
    original one, both sides agree whatever the original holds. *)
Ltac same_after_default args Hnone :=
  rewrite !dict_get_app_one;
  cbn [String.eqb Ascii.eqb Bool.eqb];
  rewrite ?Hnone;
  repeat match goal with
         | |- context [dict_get ?k' args] => destruct (dict_get k' args)
         end;
  reflexivity.

Lemma handle_search_logs_default (args : dict json) (k : string) (d : json)
    (st : Obj W) :
  dict_get k args = None ->
  In (k, d) [("time_range", JString "now-1h"); ("size", JInt 20);
             ("index_pattern", JString "logstash-*"); ("fields", default_fields)] ->
  handle_search_logs (args ++ [(k, d)])%list st = handle_search_logs args st.
Proof.
  intros Hnone Hin. unfold handle_search_logs, subscript, dict_get_default.
  destruct Hin as [E | [E | [E | [E | []]]]]; inversion E; subst k d;
    same_after_default args Hnone.
Qed.

Lemma handle_aggregate_logs_default (args : dict json) (k : string) (d : json)
    (st : Obj W) :
  dict_get k args = None ->
  In (k, d) [("time_range", JString "now-1h");
             ("index_pattern", JString "logstash-*")] ->
  handle_aggregate_logs (args ++ [(k, d)])%list st = handle_aggregate_logs args st.
Proof.
  intros Hnone Hin.
  unfold handle_aggregate_logs, aggregate_base_query, aggregate_query_dsl,
    subscript, dict_get_default.
  destruct Hin as [E | [E | []]]; inversion E; subst k d;
    same_after_default args Hnone.
Qed.

Lemma handle_get_latest_logs_default (args : dict json) (k : string) (d : json)
    (st : Obj W) :
  dict_get k args = None ->
  In (k, d) [("size", JInt 10); ("index_pattern", JString "logstash-*")] ->
  handle_get_latest_logs (args ++ [(k, d)])%list st = handle_get_latest_logs args st.
Proof.
  intros Hnone Hin. unfold handle_get_latest_logs, dict_get_default.
  destruct Hin as [E | [E | []]]; inversion E; subst k d;
    same_after_default args Hnone.
Qed.

Lemma handle_search_errors_default (args : dict json) (k : string) (d : json)
    (st : Obj W) :
  dict_get k args = None ->
  In (k, d) [("severity", JString "all"); ("time_range", JString "now-1h");
             ("size", JInt 20); ("index_pattern", JString "logstash-*")] ->
  handle_search_errors (args ++ [(k, d)])%list st = handle_search_errors args st.
Proof.
  intros Hnone Hin. unfold handle_search_errors, dict_get_default.
  destruct Hin as [E | [E | [E | [E | []]]]]; inversion E; subst k d;
    same_after_default args Hnone.
Qed.

Lemma handle_raw_query_default (args : dict json) (k : string) (d : json)
    (st : Obj W) :
  dict_get k args = None ->
  In (k, d) [("path", JString "/logstash-*/_search")] ->
  handle_raw_query (args ++ [(k, d)])%list st = handle_raw_query args st.
Proof.
  intros Hnone Hin. unfold handle_raw_query, subscript, dict_get_default.
  destruct Hin as [E | []]; inversion E; subst k d;
    same_after_default args Hnone.
Qed.

Lemma call_tool_without_session (n : string) (args : dict json) (m : Module W) :
  n <> "kibana_set_credentials" ->
  _session m = None ->
  call_tool n args m = (inl not_configured, m).
Proof.
  intros Hn Hs. unfold call_tool.
  destruct (String.eqb_spec n "kibana_set_credentials") as [E|_];
    [contradiction|].
  unfold bind at 1. rewrite get_session_run, Hs. reflexivity.
Qed.

Lemma served_same (n : string) (h : dict json -> M (Obj W) json)
    (args args' : dict json) (m : Module W) :
  n <> "kibana_set_credentials" ->
  dict_get n handlers = Some h ->
  (forall st, h args' st = h args st) ->
  call_tool n args' m = call_tool n args m.
Proof.
  intros Hn Hh Hsame.
  destruct (_session m) as [s|] eqn:Hs.
  - rewrite (@call_tool_dispatch n args' m s Hn Hs),
            (@call_tool_dispatch n args m s Hn Hs), Hh.
    unfold bind, on_session. rewrite Hsame. reflexivity.
  - rewrite !call_tool_without_session by assumption. reflexivity.
Qed.

(** Reads a default off a schema: each property name is tried in turn. *)
Ltac read_default Hd k :=
  unfold schema_default, schema_property in Hd;
  cbn [inputSchema member dict_get String.eqb Ascii.eqb Bool.eqb] in Hd;
  repeat match type of Hd with
         | context [String.eqb k ?lit] =>
             let E := fresh "E" in
             destruct (String.eqb_spec k lit) as [E|_];
             [ rewrite E in *;
               cbn [string_property string_property_default integer_property
                    member dict_get String.eqb Ascii.eqb Bool.eqb] in Hd;
               first [discriminate Hd | inversion Hd; subst]
             | ]
         end;
  try discriminate Hd.

(** X11: the defaults [list_tools] advertises are the ones the handlers
    apply: for every advertised tool and every argument whose schema gives a
    default, a call that omits the argument behaves exactly as the same call
    with the advertised default passed explicitly. *)
Theorem advertised_defaults_are_applied
    (t : Tool) (k : string) (d : json) (args : dict json) (m : Module W) :
  In t list_tools ->
  schema_default t k = Some d ->
  dict_get k args = None ->
  call_tool (name t) (args ++ [(k, d)])%list m = call_tool (name t) args m.
Proof.
  intros Hin Hd Hnone.
  destruct Hin as [<- | [<- | [<- | [<- | [<- | [<- | []]]]]]]; cbn [name].
  - read_default Hd k.
  - read_default Hd k;
      (apply (@served_same "kibana_search_logs" handle_search_logs);
       [discriminate | reflexivity |];
       intros st; apply handle_search_logs_default; [exact Hnone|];
       cbn [In]; tauto).
  - read_default Hd k;
      (apply (@served_same "kibana_aggregate_logs" handle_aggregate_logs);
       [discriminate | reflexivity |];
       intros st; apply handle_aggregate_logs_default; [exact Hnone|];
       cbn [In]; tauto).
  - read_default Hd k;
      (apply (@served_same "kibana_get_latest_logs" handle_get_latest_logs);
       [discriminate | reflexivity |];
       intros st; apply handle_get_latest_logs_default; [exact Hnone|];
       cbn [In]; tauto).
  - read_default Hd k;
      (apply (@served_same "kibana_search_errors" handle_search_errors);
       [discriminate | reflexivity |];
       intros st; apply handle_search_errors_default; [exact Hnone|];
       cbn [In]; tauto).
  - read_default Hd k;
      (apply (@served_same "kibana_raw_query" handle_raw_query);
       [discriminate | reflexivity |];
       intros st; apply handle_raw_query_default; [exact Hnone|];
       cbn [In]; tauto).
Qed.

(** *** Advertised enumerations *)

(** X12: the aggregation types the schema lists are exactly the ones the
    handler knows: for a listed type the query builder never raises the
    unknown-type [ValueError], and for every other text it raises it. *)
Theorem advertised_aggregation_types_are_known
    (t : string) (args : dict json) (base : json) :
  In t (advertised_enum "kibana_aggregate_logs" "aggregation_type") <->
  aggregate_query_dsl args (JString t) base <> inl (unknown_aggregation (JString t)).
Proof.
  unfold advertised_enum, unknown_aggregation.
  cbn [find list_tools name String.eqb Ascii.eqb Bool.eqb schema_enum
       schema_property inputSchema member dict_get strings_of flat_map app In
       py_str].
  unfold aggregate_query_dsl. cbn [eq_str py_str].
  destruct (String.eqb_spec t "by_service") as [->|H1].
  { split; [discriminate | intros _; left; reflexivity]. }
  destruct (String.eqb_spec t "by_time") as [->|H2].
  { split; [discriminate | intros _; right; left; reflexivity]. }
  destruct (String.eqb_spec t "custom") as [->|H3].
  { split; [|intros _; right; right; left; reflexivity].
    intros _.
    destruct (dict_get "custom_aggregation" args) as [c|]; [|discriminate].
    destruct (truthy c); [|discriminate].
    destruct (py_json_loads c) as [e|] eqn:Hl; [|discriminate].
    destruct (py_json_loads_error c Hl) as [-> | [msg ->]]; discriminate. }
  split.
  - intros [E | [E | [E | []]]]; congruence.
  - intros H. exfalso. apply H. reflexivity.
Qed.

(** X13: the severities the schema lists are exactly the keys of
    [error_keywords]; any other text is searched with the keywords of
    ["all"], and for every text the keyword list is not empty, so the
    [should] clause of the error search is never empty. *)
Theorem advertised_severities_have_keywords (severity : string) :
  (In severity (advertised_enum "kibana_search_errors" "severity") <->
   dict_contains severity error_keywords = true) /\
  (dict_contains severity error_keywords = false ->
   keywords_for (JString severity) = keywords_for (JString "all")) /\
  (exists keywords,
     keywords_for (JString severity) = inr keywords /\ keywords <> []).
Proof.
  unfold advertised_enum, dict_contains, keywords_for, dict_get_default,
    error_keywords.
  cbn [find list_tools name String.eqb Ascii.eqb Bool.eqb schema_enum
       schema_property inputSchema member dict_get strings_of flat_map app In].
  destruct (String.eqb_spec severity "error") as [->|H1].
  { split; [split; [reflexivity | intros _; left; reflexivity]|].
    split; [discriminate|]. eexists; split; [reflexivity | discriminate]. }
  destruct (String.eqb_spec severity "exception") as [->|H2].
  { split; [split; [reflexivity | intros _; right; left; reflexivity]|].
    split; [discriminate|]. eexists; split; [reflexivity | discriminate]. }
  destruct (String.eqb_spec severity "critical") as [->|H3].
  { split; [split; [reflexivity | intros _; right; right; left; reflexivity]|].
    split; [discriminate|]. eexists; split; [reflexivity | discriminate]. }
  destruct (String.eqb_spec severity "all") as [->|H4].
  { split; [split; [reflexivity | intros _; right; right; right; left; reflexivity]|].
    split; [discriminate|]. eexists; split; [reflexivity | discriminate]. }
  split; [split; [intros [E | [E | [E | [E | []]]]]; congruence | discriminate]|].
  split; [reflexivity|]. eexists; split; [reflexivity | discriminate].
Qed.

(** ** The queries the handlers build *)

(** X14: a log search whose [query] text is not JSON is a keyword search:
    the text goes verbatim into a [match] on [log], the time range is a
    filter, results are sorted newest first, [size] and [_source] come from
    the arguments, and the step that fills in [size] and [_source] changes
    nothing. *)
Theorem search_logs_keyword_fallback
    (args : dict json) (q msg : string) (st : Obj W) :
  dict_get "query" args = Some (JString q) ->
  json_loads q = inl msg ->
  handle_search_logs args st =
    request
      (search_path (dict_get_default "index_pattern" (JString "logstash-*") args))
      (JObject
         [("query", JObject [("bool", JObject
             [("must", JArray [JObject [("match", JObject [("log", JString q)])]]);
              ("filter", JArray
                 [range_query (dict_get_default "time_range" (JString "now-1h") args)])])]);
          ("size", dict_get_default "size" (JInt 20) args);
          ("_source", dict_get_default "fields" default_fields args);
          ("sort", sort_desc)])
      st.
Proof.
  intros Hq Hloads. unfold handle_search_logs, subscript. rewrite Hq.
  unfold bind at 1, lift at 1.
  unfold py_json_loads. rewrite Hloads.
  unfold bind at 1, lift at 1.
  rewrite ensure_size_source_object.
  reflexivity.
Qed.



Lemma handle_aggregate_logs_run (args : dict json) (st : Obj W) :
  handle_aggregate_logs args st =
    match dict_get "aggregation_type" args with
    | None => (inl (KeyError "aggregation_type"), st)
    | Some t =>
        match aggregate_base_query args with
        | inl e => (inl e, st)
        | inr base =>
            match aggregate_query_dsl args t base with
            | inl e => (inl e, st)
            | inr q =>
                request
                  (search_path
                     (dict_get_default "index_pattern" (JString "logstash-*") args))
                  q st
            end
        end
    end.
Proof.
  unfold handle_aggregate_logs, subscript.
  destruct (dict_get "aggregation_type" args) as [t|]; [|reflexivity].
  unfold bind at 1, lift at 1. unfold bind at 1, lift at 1.
  destruct (aggregate_base_query args) as [e|base]; [reflexivity|].
  unfold bind at 1, lift at 1.
  destruct (aggregate_query_dsl args t base); reflexivity.
Qed.

Lemma aggregate_query_dsl_shape (args : dict json) (t base q : json) :
  aggregate_query_dsl args t base = inr q ->
  exists aggs, q = JObject [("size", JInt 0); ("query", base); ("aggs", aggs)].
Proof.
  unfold aggregate_query_dsl.
  destruct (eq_str t "by_service").
  { intros H; inversion H. eexists; reflexivity. }
  destruct (eq_str t "by_time").
  { intros H; inversion H. eexists; reflexivity. }
  destruct (eq_str t "custom"); [|discriminate].
  destruct (dict_get "custom_aggregation" args) as [c|]; [|discriminate].
  destruct (truthy c); [|discriminate].
  destruct (py_json_loads c) as [[]|agg]; try discriminate.
  intros H; inversion H. eexists; reflexivity.
Qed.

(** X17: [handle_aggregate_logs] either raises before anything is sent,
    leaving the object as it was, or hands [request] a body made of exactly
    ["size"], ["query"] and ["aggs"], with size 0 (no hits are asked for)
    and the base query as [query]. *)
Theorem aggregate_sends_size_zero (args : dict json) (st : Obj W) :
  (exists e, handle_aggregate_logs args st = (inl e, st)) \/
  (exists base aggs,
     aggregate_base_query args = inr base /\
     handle_aggregate_logs args st =
       request
         (search_path (dict_get_default "index_pattern" (JString "logstash-*") args))
         (JObject [("size", JInt 0); ("query", base); ("aggs", aggs)])
         st).
Proof.
  rewrite handle_aggregate_logs_run.
  destruct (dict_get "aggregation_type" args) as [t|];
    [|left; eexists; reflexivity].
  destruct (aggregate_base_query args) as [e|base];
    [left; eexists; reflexivity|].
  destruct (aggregate_query_dsl args t base) as [e|q] eqn:Hq;
    [left; eexists; reflexivity|].
  destruct (aggregate_query_dsl_shape _ _ _ Hq) as [aggs ->].
  right. exists base, aggs. split; reflexivity.
Qed.

(** X18: [handle_get_latest_logs] never raises before it calls [request].
    Its body has the keys ["query"], ["size"], ["sort"], ["_source"] in that
    order, sorted newest first with the three default fields; the query
    matches everything when [service] is missing, [null] or empty, and
    matches the container name otherwise; [size] is passed as given, with no
    check against the advertised bounds. *)
Theorem latest_logs_query (args : dict json) (st : Obj W) :
  let service := dict_get_default "service" JNull args in
  handle_get_latest_logs args st =
    request
      (search_path (dict_get_default "index_pattern" (JString "logstash-*") args))
      (JObject
         [("query",
           if truthy service
           then JObject [("match", JObject [("kubernetes.container_name", service)])]
           else JObject [("match_all", JObject [])]);
          ("size", dict_get_default "size" (JInt 10) args);
          ("sort", sort_desc);
          ("_source", default_fields)])
      st /\
  (truthy service = false <->
   service = JNull \/ service = JString "" \/ service = JBool false \/
   service = JInt 0 \/ (exists sg, service = JFloat (S754_zero sg)) \/
   service = JArray [] \/ service = JObject []).
Proof.
  cbn zeta. split.
  - unfold handle_get_latest_logs.
    destruct (truthy (dict_get_default "service" JNull args)); reflexivity.
  - destruct (dict_get_default "service" JNull args) as [| b | n | f | s | l | d];
      cbn [truthy].
    + split; [intros _; left; reflexivity | reflexivity].
    + destruct b; split; try discriminate; try reflexivity.
      * intros [H|[H|[H|[H|[[sg H]|[H|H]]]]]]; discriminate.
      * intros _. right; right; left; reflexivity.
    + destruct (Z.eqb_spec n 0) as [->|Hn]; cbn [negb]; split;
        try discriminate; try reflexivity.
      * intros _. right; right; right; left; reflexivity.
      * intros [H|[H|[H|[H|[[sg H]|[H|H]]]]]]; try discriminate.
        inversion H. contradiction.
    + destruct f; split; try discriminate; try reflexivity;
        try (intros _; right; right; right; right; left; eexists; reflexivity);
        intros [H|[H|[H|[H|[[sg H]|[H|H]]]]]]; discriminate.
    + destruct (String.eqb_spec s "") as [->|Hs]; cbn [negb]; split;
        try discriminate; try reflexivity.
      * intros _. right; left; reflexivity.
      * intros [H|[H|[H|[H|[[sg H]|[H|H]]]]]]; try discriminate.
        inversion H. contradiction.
    + destruct l; split; try discriminate; try reflexivity.
      * intros _. do 5 right. left. reflexivity.
      * intros [H|[H|[H|[H|[[sg H]|[H|H]]]]]]; discriminate.
    + destruct d; split; try discriminate; try reflexivity.
      * intros _. do 6 right. reflexivity.
      * intros [H|[H|[H|[H|[[sg H]|[H|H]]]]]]; discriminate.
Qed.


End Server.

(** ** Token extraction

    The slice [login] stores, for a cookie header that starts with the
    session key. *)

Lemma str_length_append (a b : string) :
  String.length (a ++ b) = (String.length a + String.length b)%nat.
Proof.
  induction a as [|c a IH]; cbn; [reflexivity | rewrite IH; reflexivity].
Qed.

Lemma substring_append_head (a b : string) :
  String.substring 0 (String.length a) (a ++ b) = a.
Proof.
  induction a as [|c a IH]; cbn.
  - destruct b; reflexivity.
  - rewrite IH. reflexivity.
Qed.

Lemma prefix_empty (s : string) : String.prefix "" s = true.
Proof. destruct s; reflexivity. Qed.

Lemma index_semicolon_cons (c : ascii) (t : string) :
  String.index 0 ";" (String c t) =
    if Ascii.eqb c ";" then Some 0%nat
    else match String.index 0 ";" t with Some n => Some (S n) | None => None end.
Proof.
  cbn [String.index String.prefix].
  destruct (Ascii.ascii_dec ";" c) as [<-|Hne].
  - rewrite prefix_empty. reflexivity.
  - destruct (Ascii.eqb_spec c ";") as [->|_]; [contradiction|reflexivity].
Qed.

Lemma index_semicolon_after (tok rest : string) :
  str_contains ";" tok = false ->
  String.index 0 ";" (tok ++ String ";" rest) = Some (String.length tok).
Proof.
  unfold str_contains. induction tok as [|c t IH]; intros Hno.
  - cbn [append]. rewrite index_semicolon_cons. reflexivity.
  - change (String c t ++ String ";" rest) with (String c (t ++ String ";" rest)).
    rewrite index_semicolon_cons in *.
    destruct (Ascii.eqb c ";"); [discriminate|].
    rewrite IH; [reflexivity|].
    destruct (String.index 0 ";" t); [discriminate|reflexivity].
Qed.

Lemma str_find_found (s sub : string) (start : Z) (i : nat) :
  0 <= start <= str_len s ->
  String.index (Z.to_nat start) sub s = Some i ->
  str_find s sub start = Z.of_nat i.
Proof.
  intros Hr Hi. unfold str_find, clamp_index.
  destruct (Z.ltb_spec start 0) as [?|_]; [lia|].
  rewrite Z.min_l by lia. rewrite Hi.
  destruct (Z.gtb_spec start (str_len s)) as [?|_]; [lia|reflexivity].
Qed.


Lemma str_slice_between (s : string) (a b : Z) :
  0 <= a <= b -> b <= str_len s ->
  str_slice s a b = String.substring (Z.to_nat a) (Z.to_nat (b - a)) s.
Proof.
  intros Ha Hb. unfold str_slice, clamp_index.
  destruct (Z.ltb_spec a 0) as [?|_]; [lia|].
  destruct (Z.ltb_spec b 0) as [?|_]; [lia|].
  rewrite !Z.min_l by lia. reflexivity.
Qed.


Lemma sid_key_at_start (t : string) :
  str_find ("sid=" ++ t) "sid=" 0 = 0.
Proof.
  apply (str_find_found ("sid=" ++ t) "sid=" (i := 0%nat)).
  - unfold str_len. lia.
  - cbn. rewrite prefix_empty. reflexivity.
Qed.

(** X21: for a cookie header that starts with [sid=], with a [;] after the
    token, the token is what stands between [sid=] and that [;]. *)
Lemma extract_sid_delimited (tok rest : string) :
  str_contains ";" tok = false ->
  extract_sid ("sid=" ++ tok ++ ";" ++ rest) = tok.
Proof.
  intros Hno. unfold extract_sid. rewrite sid_key_at_start.
  assert (Hlen : str_len ("sid=" ++ tok ++ ";" ++ rest)
                 = 5 + Z.of_nat (String.length tok) + Z.of_nat (String.length rest)).
  { unfold str_len. rewrite !str_length_append. cbn [String.length]. lia. }
  rewrite (str_find_found ("sid=" ++ tok ++ ";" ++ rest) ";" (start := 0 + 4)
             (i := (4 + String.length tok)%nat)).
  - rewrite str_slice_between by lia.
    replace (Z.to_nat (0 + 4)) with 4%nat by lia.
    replace (Z.to_nat (Z.of_nat (4 + String.length tok) - (0 + 4)))
      with (String.length tok) by lia.
    cbn [append String.substring].
    apply substring_append_head.
  - lia.
  - replace (Z.to_nat (0 + 4)) with 4%nat by lia.
    cbn [append String.index].
    rewrite (index_semicolon_after tok rest Hno). reflexivity.
Qed.


(** ** Worked examples on the scripted backend *)

(** C3: for the header value [sid=abc123; Path=/; HttpOnly] the token is
    [abc123], but when no [;] follows the token the slice ends one character
    early: [find] answers -1 and [set_cookie[sid_start:-1]] drops the last
    character, so a login answered with [sid=abc123] stores [abc12]. *)
Theorem login_token_without_delimiter :
  extract_sid "sid=abc123; Path=/; HttpOnly" = "abc123" /\
  str_find "sid=abc123" ";" 4 = -1 /\
  extract_sid "sid=abc123" = "abc12" /\
  login sample_url sample_version clock scripted_post login_no_delimiter
    = (inr tt,
       mkObj (mkKibanaSession (JString "elastic") (JString "secret")
                (Some "abc12") (Some 1000000))
             (mkScripted 1000000 [])
             [(login_request sample_url sample_version elastic,
               inr (ok_login_response "sid=abc123"))]).
Proof. repeat split. Qed.

(** Refutes C2 as stated: exactly 23 hours after the login the age of the
    session equals the timeout, yet [ensure_authenticated] sends nothing. *)
Lemma ensure_authenticated_at_timeout_sends_nothing :
  ~ (exchanged (snd (ensure_authenticated sample_url sample_version
                       clock scripted_post at_timeout))
       <> exchanged at_timeout
     <->
     (session_absent (self at_timeout) \/
      exists created,
        session_created_at (self at_timeout) = Some created /\
        clock (world at_timeout) - created >= SESSION_TIMEOUT)).
Proof.
  intros [_ H]. apply H; [|reflexivity].
  right. exists 0. split; [reflexivity|]. vm_compute. discriminate.
Qed.

(** Refutes C7 as stated: before any [set_credentials] call the only
    configuration check of the module, [get_session], returns no value (and
    so no [false]): it raises. *)
Lemma get_session_returns_nothing_before_credentials :
  ~ (exists (s : KibanaSession) (m' : Module ScriptedWorld),
       get_session (initial_module (mkScripted 0 [])) = (inr s, m')).
Proof. intros [s [m' H]]. discriminate H. Qed.

(** With every proxied call answered 401, a request on a valid session makes
    one proxied call, one login and one more proxied call with the new
    token, then fails with the status and the body of the second answer. *)
Example request_always_unauthorized :
  let '(res, st') := request sample_url sample_version clock scripted_post
                       sample_json_loads (JString "/idx/_search") (JObject [])
                       always_unauthorized in
  res = inl (Exception "Kibana 请求错误: 请求失败: 401 - Unauthorized") /\
  map fst (exchanged st')
    = [proxy_request sample_url sample_version "/idx/_search" (JObject []) (Some "abc123");
       login_request sample_url sample_version logged_in;
       proxy_request sample_url sample_version "/idx/_search" (JObject []) (Some "def456")] /\
  List.length (script (world st')) = 2%nat.
Proof. repeat split. Qed.

(** Within the validity window a request sends the proxied call only and
    returns the decoded body. *)
Example request_within_ttl :
  let '(res, st') := request sample_url sample_version clock scripted_post
                       sample_json_loads (JString "/idx/_search") (JObject [])
                       within_ttl in
  res = inr (JObject [("hits", JObject [])]) /\
  map fst (exchanged st')
    = [proxy_request sample_url sample_version "/idx/_search" (JObject []) (Some "abc123")].
Proof. repeat split. Qed.

(** Credentials are set, then three raw queries are made, the third a day
    after the second: the first logs in and queries, the second only
    queries, the third logs in again and queries with the new token. *)
Example end_to_end_scenario :
  let tool := call_tool sample_url sample_version clock scripted_post
                sample_json_loads sample_repr in
  let raw := tool "kibana_raw_query"
               [("path", JString "/idx/_search"); ("query", JString "{}")] in
  let login_call := ("https://logs.example.com/internal/security/login", None) in
  let query_call := fun cookie =>
    ("https://logs.example.com/api/console/proxy?path=%2Fidx%2F_search&method=POST",
     Some cookie) in
  let m1 := snd (tool "kibana_set_credentials"
                   [("username", JString "elastic"); ("password", JString "secret")]
                   start_of_day) in
  let m2 := snd (raw m1) in
  let m3 := snd (raw m2) in
  let m4 := snd (raw (a_day_later m3)) in
  calls_made m1 = [] /\
  fst (raw m1) = inr (Rendered (JObject [("hits", JObject [])])) /\
  calls_made m2 = [login_call; query_call "sid=abc123"] /\
  calls_made m3 = (calls_made m2 ++ [query_call "sid=abc123"])%list /\
  calls_made m4 = (calls_made m3 ++ [login_call; query_call "sid=def456"])%list.
Proof. repeat split. Qed.

(** One microsecond past 23 hours the session is stale and a login is made. *)
Example ensure_authenticated_past_timeout :
  map fst (exchanged (snd (ensure_authenticated sample_url sample_version
     clock scripted_post
     (mkObj logged_in
        (mkScripted (SESSION_TIMEOUT + 1) [inr (ok_login_response "sid=def456; Path=/")])
        []))))
  = [login_request sample_url sample_version logged_in].
Proof. reflexivity. Qed.

(** A login answered with status 200 and a cookie header without [sid=]. *)
Lemma login_fails_iff_rejected_witness :
  scripted_post (login_request sample_url sample_version (self login_no_sid))
      (world login_no_sid)
    = (inr (ok_login_response "Path=/; HttpOnly"), mkScripted 1000000 []) /\
  (let r := ok_login_response "Path=/; HttpOnly" in
   let rejected := status_code r <> 200
                   \/ str_contains "sid=" (set_cookie_of r) = false in
   let '(res, st') := login sample_url sample_version clock scripted_post
                        login_no_sid in
   ((exists msg, res = inl (Exception ("Kibana 登录错误: " ++ msg))) <-> rejected) /\
   (rejected -> self st' = self login_no_sid) /\
   (status_code r = 200 -> str_contains "sid=" (set_cookie_of r) = false ->
      res = inl (Exception "Kibana 登录错误: 登录成功但未获取到 sid cookie")) /\
   (~ rejected ->
      res = inr tt /\
      sid_cookie (self st') = Some (extract_sid (set_cookie_of r)) /\
      session_created_at (self st') = Some (clock (mkScripted 1000000 [])))).
Proof.
  split; [reflexivity|].
  apply (@login_fails_iff_rejected sample_url sample_version ScriptedWorld
           clock scripted_post login_no_sid
           (ok_login_response "Path=/; HttpOnly") (mkScripted 1000000 [])).
  reflexivity.
Defined.

(** New credentials on a module whose session holds [abc123]: the next
    request logs in as [kibana_ro] and sends the proxied call with
    [def456]. *)
Lemma credential_swap_forces_fresh_login_witness :
  _session configured = Some logged_in /\
  (let m1 := snd (set_credentials (JString "kibana_ro") (JString "hunter2") configured) in
   let fresh := KibanaSession_init (JString "kibana_ro") (JString "hunter2") in
   In logged_in (closing m1) /\
   get_session m1 = (inr fresh, m1) /\
   login_params (login_request sample_url sample_version fresh)
     = Some (JObject [("username", JString "kibana_ro");
                      ("password", JString "hunter2")]) /\
   let '(res, m2) :=
     on_session fresh
       (request sample_url sample_version clock scripted_post sample_json_loads
          (JString "/idx/_search") (JObject []))
       m1 in
   exists out rest,
     m_exchanged m2
       = (m_exchanged configured
            ++ (login_request sample_url sample_version fresh, out) :: rest)%list /\
     ((exists lr out2 rest',
         out = inr lr /\ login_accepted lr = true /\
         rest = (proxy_request sample_url sample_version "/idx/_search" (JObject [])
                   (Some (extract_sid (set_cookie_of lr))), out2) :: rest') \/
      (rest = [] /\ res = inl (login_error out)))).
Proof.
  split; [reflexivity|].
  apply (@credential_swap_forces_fresh_login sample_url sample_version
           ScriptedWorld clock scripted_post sample_json_loads
           (JString "elastic") (JString "secret")
           (JString "kibana_ro") (JString "hunter2")
           "abc123" 0 configured "/idx/_search" (JObject [])).
  reflexivity.
Defined.

(** A log search on the module as imported. *)
Lemma not_configured_fails_without_network_witness :
  _session unconfigured = None /\
  "kibana_search_logs" <> "kibana_set_credentials" /\
  get_session unconfigured = (inl not_configured, unconfigured) /\
  call_tool sample_url sample_version clock scripted_post sample_json_loads
      sample_repr "kibana_search_logs" [("query", JString "timeout")] unconfigured
    = (inl not_configured, unconfigured) /\
  (forall (m' : Module ScriptedWorld) e,
     fst (get_session m') = inl e -> _session m' = None /\ e = not_configured) /\
  (forall u p (m' : Module ScriptedWorld), fst (set_credentials u p m') = inr tt).
Proof.
  split; [reflexivity|]. split; [discriminate|].
  apply (@not_configured_fails_without_network sample_url sample_version
           ScriptedWorld clock scripted_post sample_json_loads sample_repr
           "kibana_search_logs" [("query", JString "timeout")] unconfigured).
  - reflexivity.
  - discriminate.
Defined.

(** An aggregation by service whose filter is the text [not json]. *)
Lemma aggregate_ignores_malformed_filter_witness :
  let args := [("aggregation_type", JString "by_service");
               ("filter", JString "not json")] in
  dict_get "filter" args = Some (JString "not json") /\
  sample_json_loads "not json" = inl "Expecting value: line 1 column 1 (char 0)" /\
  aggregate_base_query sample_json_loads args
    = inr (range_query (dict_get_default "time_range" (JString "now-1h") args)) /\
  handle_aggregate_logs sample_url sample_version clock scripted_post
      sample_json_loads sample_repr args within_ttl
    = handle_aggregate_logs sample_url sample_version clock scripted_post
        sample_json_loads sample_repr (dict_remove "filter" args) within_ttl.
Proof.
  cbn zeta. split; [reflexivity|]. split; [reflexivity|].
  apply (@aggregate_ignores_malformed_filter sample_url sample_version
           ScriptedWorld clock scripted_post sample_json_loads sample_repr
           [("aggregation_type", JString "by_service");
            ("filter", JString "not json")]
           "not json" "Expecting value: line 1 column 1 (char 0)" within_ttl);
    reflexivity.
Defined.

(** A log search whose query is the text [{"size": 5}]. *)
Lemma search_logs_fills_size_and_source_witness :
  let args := [("query", JString size_five_text)] in
  let dsl := [("size", JInt 5)] in
  dict_get "query" args = Some (JString size_five_text) /\
  sample_json_loads size_five_text = inr (JObject dsl) /\
  (let size := dict_get_default "size" (JInt 20) args in
   let fields := dict_get_default "fields" default_fields args in
   let index_pattern := dict_get_default "index_pattern" (JString "logstash-*") args in
   exists body : dict json,
     handle_search_logs sample_url sample_version clock scripted_post
         sample_json_loads sample_repr args within_ttl
       = request sample_url sample_version clock scripted_post sample_json_loads
           (search_path sample_repr index_pattern) (JObject body) within_ttl /\
     dict_get "size" body = Some (dict_get_default "size" size dsl) /\
     dict_get "_source" body = Some (dict_get_default "_source" fields dsl) /\
     (forall k v, dict_get k dsl = Some v -> dict_get k body = Some v) /\
     (forall k, String.eqb k "size" = false -> String.eqb k "_source" = false ->
        dict_get k body = dict_get k dsl)).
Proof.
  cbn zeta. split; [reflexivity|]. split; [reflexivity|].
  apply (@search_logs_fills_size_and_source sample_url sample_version
           ScriptedWorld clock scripted_post sample_json_loads sample_repr
           [("query", JString size_five_text)] size_five_text
           [("size", JInt 5)] within_ttl);
    reflexivity.
Defined.

(** ** The encoded path *)

Lemma hex_digit_unreserved (c : ascii) :
  unreserved (hex_digit (N.div (N_of_ascii c) 16)) = true /\
  unreserved (hex_digit (N.modulo (N_of_ascii c) 16)) = true.
Proof.
  destruct c as [[] [] [] [] [] [] [] []]; split; reflexivity.
Qed.

(** X20: the path [request] puts into the proxy URL is made of letters,
    digits, [_.-~] and [%] only, so no [/], [&], [=], [?], [#] or space of
    the caller's path can reach the URL; a path made of letters, digits and
    [_.-~] only is left as it is. *)
Theorem quoted_path_is_url_safe (p : string) :
  Forall (fun c => unreserved c = true \/ c = "%"%char)
         (list_ascii_of_string (quote p)) /\
  (Forall (fun c => unreserved c = true) (list_ascii_of_string p) -> quote p = p).
Proof.
  split.
  - induction p as [|c p IH]; cbn [quote list_ascii_of_string]; [constructor|].
    destruct (unreserved c) eqn:Hc; cbn [list_ascii_of_string].
    + constructor; [left; exact Hc | exact IH].
    + destruct (hex_digit_unreserved c) as [Hhi Hlo].
      constructor; [right; reflexivity|].
      constructor; [left; exact Hhi|].
      constructor; [left; exact Hlo | exact IH].
  - induction p as [|c p IH]; cbn [quote list_ascii_of_string]; [reflexivity|].
    intros H. inversion H as [|c' l Hc Hrest]; subst.
    rewrite Hc, (IH Hrest). reflexivity.
Qed.

(** ** Worked examples for the further properties *)


(** A search answered with a result. *)
Lemma request_value_comes_from_200_witness :
  fst (request sample_url sample_version clock scripted_post sample_json_loads
         (JString "/idx/_search") (JObject []) within_ttl)
    = inr (JObject [("hits", JObject [])]) /\
  (exists (p : string) (cookie : option string) (r : Response)
          (before : list Exchange),
     JString "/idx/_search" = JString p /\
     exchanged
       (snd (request sample_url sample_version clock scripted_post
               sample_json_loads (JString "/idx/_search") (JObject []) within_ttl))
       = (before ++ [(proxy_request sample_url sample_version p (JObject []) cookie,
                      inr r)])%list /\
     status_code r = 200 /\
     sample_json_loads (text r) = inr (JObject [("hits", JObject [])])).
Proof.
  split; [reflexivity|].
  apply (@request_value_comes_from_200 sample_url sample_version ScriptedWorld
           clock scripted_post sample_json_loads (JString "/idx/_search")
           (JObject []) (JObject [("hits", JObject [])]) within_ttl).
  reflexivity.
Defined.

Lemma request_fast_path_witness :
  session_valid_at (self within_ttl) (clock (world within_ttl)) = true /\
  scripted_post
    (proxy_request sample_url sample_version "/idx/_search" (JObject [])
       (sid_cookie (self within_ttl)))
    (world within_ttl)
    = (inr ok_hits, mkScripted 2000000 []) /\
  (forall r : Response, @inr string Response ok_hits = inr r -> status_code r <> 401) /\
  request sample_url sample_version clock scripted_post sample_json_loads
      (JString "/idx/_search") (JObject []) within_ttl
    = (request_outcome sample_json_loads (inr ok_hits),
       mkObj (self within_ttl) (mkScripted 2000000 [])
         (exchanged within_ttl ++
            [(proxy_request sample_url sample_version "/idx/_search" (JObject [])
                (sid_cookie (self within_ttl)),
              inr ok_hits)])%list).
Proof.
  assert (H401 : forall r : Response,
             @inr string Response ok_hits = inr r -> status_code r <> 401).
  { intros r H. inversion H. discriminate. }
  split; [reflexivity|]. split; [reflexivity|]. split; [exact H401|].
  apply (@request_fast_path sample_url sample_version ScriptedWorld clock
           scripted_post sample_json_loads "/idx/_search" (JObject []) within_ttl
           (inr ok_hits) (mkScripted 2000000 []));
    [reflexivity | reflexivity | exact H401].
Defined.

(** The last instant of the window. *)
Lemma accepted_login_opens_window_witness :
  scripted_post (login_request sample_url sample_version (self login_ok))
      (world login_ok)
    = (inr (ok_login_response "sid=abc123; Path=/; HttpOnly"), mkScripted 1000000 []) /\
  login_accepted (ok_login_response "sid=abc123; Path=/; HttpOnly") = true /\
  extract_sid (set_cookie_of (ok_login_response "sid=abc123; Path=/; HttpOnly")) <> "" /\
  self at_end_of_window
    = self (snd (login sample_url sample_version clock scripted_post login_ok)) /\
  (clock (world at_end_of_window) - clock (mkScripted 1000000 []) <= SESSION_TIMEOUT ->
   ensure_authenticated sample_url sample_version clock scripted_post at_end_of_window
     = (inr tt, at_end_of_window)) /\
  (clock (world at_end_of_window) - clock (mkScripted 1000000 []) > SESSION_TIMEOUT ->
   ensure_authenticated sample_url sample_version clock scripted_post at_end_of_window
     = login sample_url sample_version clock scripted_post at_end_of_window).
Proof.
  split; [reflexivity|]. split; [reflexivity|]. split; [discriminate|].
  split; [reflexivity|].
  apply (@accepted_login_opens_window sample_url sample_version ScriptedWorld
           clock scripted_post login_ok at_end_of_window
           (ok_login_response "sid=abc123; Path=/; HttpOnly") (mkScripted 1000000 []));
    [reflexivity | reflexivity | discriminate | reflexivity].
Defined.

Lemma empty_token_is_never_valid_witness :
  scripted_post (login_request sample_url sample_version (self login_empty_token))
      (world login_empty_token)
    = (inr (ok_login_response "sid=; Path=/"), mkScripted 1000000 []) /\
  login_accepted (ok_login_response "sid=; Path=/") = true /\
  extract_sid (set_cookie_of (ok_login_response "sid=; Path=/")) = "" /\
  self holds_empty_token
    = self (snd (login sample_url sample_version clock scripted_post login_empty_token)) /\
  fst (login sample_url sample_version clock scripted_post login_empty_token) = inr tt /\
  sid_cookie (self holds_empty_token) = Some "" /\
  ensure_authenticated sample_url sample_version clock scripted_post holds_empty_token
    = login sample_url sample_version clock scripted_post holds_empty_token.
Proof.
  split; [reflexivity|]. split; [reflexivity|]. split; [reflexivity|].
  split; [reflexivity|].
  apply (@empty_token_is_never_valid sample_url sample_version ScriptedWorld
           clock scripted_post login_empty_token holds_empty_token
           (ok_login_response "sid=; Path=/") (mkScripted 1000000 []));
    reflexivity.
Defined.

(** A raw query on a module whose session holds a token. *)
Lemma tool_calls_keep_token_and_time_paired_witness :
  (forall s : KibanaSession, _session configured = Some s -> session_paired s) /\
  (forall s' : KibanaSession,
     _session
       (snd (call_tool sample_url sample_version clock scripted_post
               sample_json_loads sample_repr "kibana_raw_query"
               [("query", JString "{}")] configured))
       = Some s' ->
     session_paired s').
Proof.
  assert (H : forall s : KibanaSession,
             _session configured = Some s -> session_paired s).
  { intros s Hs. inversion Hs. split; discriminate. }
  split; [exact H|].
  intros s'.
  apply (@tool_calls_keep_token_and_time_paired sample_url sample_version
           ScriptedWorld clock scripted_post sample_json_loads sample_repr
           "kibana_raw_query" [("query", JString "{}")] configured s').
  exact H.
Defined.

Lemma query_tools_keep_session_and_credentials_witness :
  "kibana_raw_query" <> "kibana_set_credentials" /\
  _session configured = Some logged_in /\
  (exists s' : KibanaSession,
     _session
       (snd (call_tool sample_url sample_version clock scripted_post
               sample_json_loads sample_repr "kibana_raw_query"
               [("query", JString "{}")] configured))
       = Some s' /\
     username s' = username logged_in /\
     password s' = password logged_in /\
     closing
       (snd (call_tool sample_url sample_version clock scripted_post
               sample_json_loads sample_repr "kibana_raw_query"
               [("query", JString "{}")] configured))
       = closing configured).
Proof.
  split; [discriminate|]. split; [reflexivity|].
  apply (@query_tools_keep_session_and_credentials sample_url sample_version
           ScriptedWorld clock scripted_post sample_json_loads sample_repr
           "kibana_raw_query" [("query", JString "{}")] configured logged_in);
    [discriminate | reflexivity].
Defined.

Lemma advertised_tools_are_served_witness :
  _session configured = Some logged_in /\
  (In "kibana_raw_query" (map name list_tools) ->
   "kibana_raw_query" = "kibana_set_credentials" \/
   exists h : dict json -> M (Obj ScriptedWorld) json,
     dict_get "kibana_raw_query"
       (handlers sample_url sample_version clock scripted_post sample_json_loads
          sample_repr)
       = Some h /\
     call_tool sample_url sample_version clock scripted_post sample_json_loads
         sample_repr "kibana_raw_query" [("query", JString "{}")] configured
       = (r <- on_session logged_in (h [("query", JString "{}")]) ;;
          ret (Rendered r)) configured) /\
  (~ In "kibana_raw_query" (map name list_tools) ->
   call_tool sample_url sample_version clock scripted_post sample_json_loads
       sample_repr "kibana_raw_query" [("query", JString "{}")] configured
     = (inl (ValueError ("未知工具: " ++ "kibana_raw_query")), configured)).
Proof.
  split; [reflexivity|].
  apply (@advertised_tools_are_served sample_url sample_version ScriptedWorld
           clock scripted_post sample_json_loads sample_repr
           "kibana_raw_query" [("query", JString "{}")] configured logged_in).
  reflexivity.
Defined.


(** A keyword search with and without the advertised size. *)
Lemma advertised_defaults_are_applied_witness :
  In search_logs_tool list_tools /\
  schema_default search_logs_tool "size" = Some (JInt 20) /\
  dict_get "size" [("query", JString "timeout")] = None /\
  call_tool sample_url sample_version clock scripted_post sample_json_loads
      sample_repr (name search_logs_tool)
      ([("query", JString "timeout")] ++ [("size", JInt 20)])%list configured
    = call_tool sample_url sample_version clock scripted_post sample_json_loads
        sample_repr (name search_logs_tool) [("query", JString "timeout")] configured.
Proof.
  assert (Hin : In search_logs_tool list_tools).
  { right. left. reflexivity. }
  split; [exact Hin|]. split; [reflexivity|]. split; [reflexivity|].
  apply (@advertised_defaults_are_applied sample_url sample_version
           ScriptedWorld clock scripted_post sample_json_loads sample_repr
           search_logs_tool "size" (JInt 20) [("query", JString "timeout")] configured);
    [exact Hin | reflexivity | reflexivity].
Defined.

Lemma search_logs_keyword_fallback_witness :
  dict_get "query" [("query", JString "timeout")] = Some (JString "timeout") /\
  sample_json_loads "timeout" = inl "Expecting value: line 1 column 1 (char 0)" /\
  handle_search_logs sample_url sample_version clock scripted_post
      sample_json_loads sample_repr [("query", JString "timeout")] within_ttl
    = request sample_url sample_version clock scripted_post sample_json_loads
        (search_path sample_repr
           (dict_get_default "index_pattern" (JString "logstash-*")
              [("query", JString "timeout")]))
        (JObject
           [("query", JObject [("bool", JObject
               [("must", JArray
                   [JObject [("match", JObject [("log", JString "timeout")])]]);
                ("filter", JArray
                   [range_query
                      (dict_get_default "time_range" (JString "now-1h")
                         [("query", JString "timeout")])])])]);
            ("size", dict_get_default "size" (JInt 20) [("query", JString "timeout")]);
            ("_source",
             dict_get_default "fields" default_fields [("query", JString "timeout")]);
            ("sort", sort_desc)])
        within_ttl.
Proof.
  split; [reflexivity|]. split; [reflexivity|].
  apply (@search_logs_keyword_fallback sample_url sample_version ScriptedWorld
           clock scripted_post sample_json_loads sample_repr
           [("query", JString "timeout")] "timeout"
           "Expecting value: line 1 column 1 (char 0)" within_ttl);
    reflexivity.
Defined.


Lemma extract_sid_delimited_witness :
  str_contains ";" "abc123" = false /\
  extract_sid ("sid=" ++ "abc123" ++ ";" ++ " Path=/; HttpOnly") = "abc123".
Proof.
  split; [reflexivity|].
  apply (extract_sid_delimited "abc123" " Path=/; HttpOnly"). reflexivity.
Defined.

